(** * Presentation-surface negotiation of the Vulkan tutorial fragments

    A shallow embedding of the decision logic of
    [src/Presentation/swap_chain.cpp]: queue family resolution
    ([findQueueFamilies]), the device suitability predicate
    ([isDeviceSuitable]), the three swap chain selections
    ([chooseSwapSurfaceFormat], [chooseSwapPresentMode], [chooseSwapExtent])
    and the population of the create-info structure in [createSwapChain].

    Conventions.
    - A [uint32_t] is a [Z] in [0, 2^32); arithmetic on it is written with
      its reduction modulo [2^32] ([u32]).  An [int] is a [Z]; the
      conversion of an [int] to [uint32_t] is [u32] as well.
    - What the driver answers for a physical device and the window surface
      is data of the model ([VkPhysicalDevice]); the calls that only read it
      become projections.
    - A C++ function that can throw, or whose control can reach the end of
      a value-returning body, yields a [result]. *)

From Stdlib Require Import ZArith List String Lia.
From Stdlib Require QArith.
From stdpp Require Import base decidable option list strings gmap.

Open Scope string_scope.
Open Scope Z_scope.

(** ** Machine integers *)

Definition UINT32_MAX : Z := 4294967295.

(** Conversion to [uint32_t] (and wrap-around of [uint32_t] arithmetic). *)
Definition u32 (z : Z) : Z := z mod 4294967296.

(** ** Results of C++ calls *)

Inductive exception : Type :=
  | runtime_error (what : string)
  | bad_optional_access.

(** [Return a]: the call returned [a].  [Throw e]: it left by exception [e].
    [NoReturn]: control reached the closing end of a value-returning
    function without a [return] statement, so no value is defined. *)
Inductive result (A : Type) : Type :=
  | Return (a : A)
  | Throw (e : exception)
  | NoReturn.

Arguments Return {A} a.
Arguments Throw {A} e.
Arguments NoReturn {A}.

Definition bind {A B : Type} (r : result A) (k : A -> result B) : result B :=
  match r with
  | Return a => k a
  | Throw e => Throw e
  | NoReturn => NoReturn
  end.

Notation "x <- r ;; k" := (bind r (fun x => k))
  (at level 100, r at next level, right associativity).

(** [std::optional<T>::value()]. *)
Definition value {A : Type} (o : option A) : result A :=
  match o with
  | Some a => Return a
  | None => Throw bad_optional_access
  end.

(** [std::optional<T>::has_value()]. *)
Definition has_value {A : Type} (o : option A) : bool :=
  match o with
  | Some _ => true
  | None => false
  end.

(** ** Vulkan data, as far as the program reads it

    The numeric values are those of the Vulkan headers. *)

Definition VK_QUEUE_GRAPHICS_BIT : Z := 1.
Definition VK_FORMAT_B8G8R8A8_UNORM : Z := 44.
Definition VK_FORMAT_B8G8R8A8_SRGB : Z := 50.
Definition VK_COLOR_SPACE_SRGB_NONLINEAR_KHR : Z := 0.
Definition VK_IMAGE_USAGE_COLOR_ATTACHMENT_BIT : Z := 16.
Definition VK_COMPOSITE_ALPHA_OPAQUE_BIT_KHR : Z := 1.
Definition VK_NULL_HANDLE : Z := 0.
Definition VK_KHR_SWAPCHAIN_EXTENSION_NAME : string := "VK_KHR_swapchain".

(** The four presentation modes the source documents. *)
Inductive VkPresentModeKHR : Type :=
  | VK_PRESENT_MODE_IMMEDIATE_KHR
  | VK_PRESENT_MODE_MAILBOX_KHR
  | VK_PRESENT_MODE_FIFO_KHR
  | VK_PRESENT_MODE_FIFO_RELAXED_KHR.

#[global] Instance VkPresentModeKHR_eq_dec : EqDecision VkPresentModeKHR.
Proof. solve_decision. Defined.

Inductive VkSharingMode : Type :=
  | VK_SHARING_MODE_EXCLUSIVE
  | VK_SHARING_MODE_CONCURRENT.

Record VkExtent2D : Type := mkExtent {
  width : Z;
  height : Z
}.

Record VkSurfaceFormatKHR : Type := mkSurfaceFormat {
  format : Z;
  colorSpace : Z
}.

Record VkSurfaceCapabilitiesKHR : Type := mkCapabilities {
  minImageCount : Z;
  maxImageCount : Z;
  currentExtent : VkExtent2D;
  minImageExtent : VkExtent2D;
  maxImageExtent : VkExtent2D;
  currentTransform : Z
}.

Record VkQueueFamilyProperties : Type := mkQueueFamily {
  queueFlags : Z
}.

(** What the driver reports for one physical device and the window surface:
    the answers of [vkGetPhysicalDeviceQueueFamilyProperties],
    [vkGetPhysicalDeviceSurfaceSupportKHR] (by queue family index),
    [vkGetPhysicalDeviceSurfaceCapabilitiesKHR],
    [vkGetPhysicalDeviceSurfaceFormatsKHR],
    [vkGetPhysicalDeviceSurfacePresentModesKHR] and
    [vkEnumerateDeviceExtensionProperties] (the extension names). *)
Record VkPhysicalDevice : Type := mkPhysicalDevice {
  queueFamilyProperties : list VkQueueFamilyProperties;
  surfaceSupportKHR : Z -> bool;
  surfaceCapabilitiesKHR : VkSurfaceCapabilitiesKHR;
  surfaceFormatsKHR : list VkSurfaceFormatKHR;
  surfacePresentModesKHR : list VkPresentModeKHR;
  deviceExtensionProperties : list string
}.

(** ** [struct QueueFamilyIndices] *)

Record QueueFamilyIndices : Type := mkIndices {
  graphicsFamily : option Z;
  presentFamily : option Z
}.

(** [bool isComplete() { return graphicsFamily.has_value(); }] *)
Definition isComplete (indices : QueueFamilyIndices) : bool :=
  has_value (graphicsFamily indices).

(** ** [struct SwapChainSupportDetails] *)

Record SwapChainSupportDetails : Type := mkSupport {
  capabilities : VkSurfaceCapabilitiesKHR;
  formats : list VkSurfaceFormatKHR;
  presentModes : list VkPresentModeKHR
}.

(** ** [findQueueFamilies]

    The range-for over [queueFamilies] with the [int i] counter.  The state
    of the loop is [(indices, i)]; the function returns [indices].  The
    second component is kept so that theorems can say where the scan
    stopped: at a [break] it is the index of the family that completed the
    record, after the last family it is the number of families. *)

Definition graphics_bit_set (queueFamily : VkQueueFamilyProperties) : bool :=
  negb (Z.land (queueFlags queueFamily) VK_QUEUE_GRAPHICS_BIT =? 0).

Fixpoint findQueueFamilies_loop (device : VkPhysicalDevice)
    (queueFamilies : list VkQueueFamilyProperties)
    (indices : QueueFamilyIndices) (i : Z) : QueueFamilyIndices * Z :=
  match queueFamilies with
  | [] => (indices, i)
  | queueFamily :: rest =>
      let indices1 :=
        if graphics_bit_set queueFamily
        then mkIndices (Some (u32 i)) (presentFamily indices)
        else indices in
      let presentSupport := surfaceSupportKHR device (u32 i) in
      let indices2 :=
        if presentSupport
        then mkIndices (graphicsFamily indices1) (Some (u32 i))
        else indices1 in
      if isComplete indices2
      then (indices2, i)
      else findQueueFamilies_loop device rest indices2 (i + 1)
  end.

Definition findQueueFamilies_scan (device : VkPhysicalDevice)
    : QueueFamilyIndices * Z :=
  findQueueFamilies_loop device (queueFamilyProperties device)
    (mkIndices None None) 0.

Definition findQueueFamilies (device : VkPhysicalDevice) : QueueFamilyIndices :=
  fst (findQueueFamilies_scan device).

(** ** [checkDeviceExtensionSupport]

    The source declares the function twice: a placeholder body
    [return true;] and, right after it, the body embedded here, which is the
    one that inspects the device.  [deviceExtensions] is the list of
    required device extensions; [requiredExtensions] is the [std::set] built
    from it, from which every available extension name is erased. *)

Definition deviceExtensions : list string := [VK_KHR_SWAPCHAIN_EXTENSION_NAME].

Definition checkDeviceExtensionSupport (device : VkPhysicalDevice) : bool :=
  let availableExtensions := deviceExtensionProperties device in
  let requiredExtensions : gset string := list_to_set deviceExtensions in
  let requiredExtensions :=
    foldl (fun required extensionName => required ∖ {[ extensionName ]})
      requiredExtensions availableExtensions in
  bool_decide (requiredExtensions = ∅).

(** ** [querySwapChainSupport] *)

Definition querySwapChainSupport (device : VkPhysicalDevice)
    : SwapChainSupportDetails :=
  let formatCount := length (surfaceFormatsKHR device) in
  let presentModeCount := length (surfacePresentModesKHR device) in
  mkSupport (surfaceCapabilitiesKHR device)
    (if negb (Nat.eqb formatCount 0) then surfaceFormatsKHR device else [])
    (if negb (Nat.eqb presentModeCount 0)
     then surfacePresentModesKHR device else []).

(** ** [isDeviceSuitable]

    The [return] statement of the source reads
    [indices.isComplete() extensionsSupported && swapChainAdequate]; the
    conjunction of the three operands is embedded. *)

(** [std::vector<T>::empty()]. *)
Definition vector_empty {A : Type} (v : list A) : bool :=
  match v with
  | [] => true
  | _ :: _ => false
  end.

Definition isDeviceSuitable (device : VkPhysicalDevice) : bool :=
  let indices := findQueueFamilies device in
  let extensionsSupported := checkDeviceExtensionSupport device in
  let swapChainAdequate :=
    if extensionsSupported
    then
      let swapChainSupport := querySwapChainSupport device in
      negb (vector_empty (formats swapChainSupport))
      && negb (vector_empty (presentModes swapChainSupport))
    else false in
  isComplete indices && extensionsSupported && swapChainAdequate.

(** ** [pickPhysicalDevice]

    [devices] is the answer of [vkEnumeratePhysicalDevices]; the member
    [physicalDevice] starts as [VK_NULL_HANDLE] ([None]) and receives the
    first suitable device. *)

Fixpoint pickPhysicalDevice_loop (devices : list VkPhysicalDevice)
    : option VkPhysicalDevice :=
  match devices with
  | [] => None
  | device :: rest =>
      if isDeviceSuitable device then Some device
      else pickPhysicalDevice_loop rest
  end.

Definition pickPhysicalDevice (devices : list VkPhysicalDevice)
    : result VkPhysicalDevice :=
  let deviceCount := length devices in
  if Nat.eqb deviceCount 0
  then Throw (runtime_error "failed to find GPUs with Vulkan support!")
  else
    match pickPhysicalDevice_loop devices with
    | Some physicalDevice => Return physicalDevice
    | None => Throw (runtime_error "failed to find a suitable GPU!")
    end.

(** ** [chooseSwapSurfaceFormat]

    The body of the source consists of the loop alone: no statement follows
    it, so when no entry matches, control leaves the function without a
    [return] ([NoReturn]). *)

Fixpoint chooseSwapSurfaceFormat (availableFormats : list VkSurfaceFormatKHR)
    : result VkSurfaceFormatKHR :=
  match availableFormats with
  | [] => NoReturn
  | availableFormat :: rest =>
      if (format availableFormat =? VK_FORMAT_B8G8R8A8_SRGB)
         && (colorSpace availableFormat =? VK_COLOR_SPACE_SRGB_NONLINEAR_KHR)
      then Return availableFormat
      else chooseSwapSurfaceFormat rest
  end.

(** ** [chooseSwapPresentMode] *)

Fixpoint chooseSwapPresentMode (availablePresentModes : list VkPresentModeKHR)
    : VkPresentModeKHR :=
  match availablePresentModes with
  | [] => VK_PRESENT_MODE_FIFO_KHR
  | availablePresentMode :: rest =>
      if bool_decide (availablePresentMode = VK_PRESENT_MODE_MAILBOX_KHR)
      then availablePresentMode
      else chooseSwapPresentMode rest
  end.

(** ** [chooseSwapExtent]

    [GLFWwindow] holds what [glfwGetFramebufferSize] writes into the two
    [int] variables.  [std_clamp] is [std::clamp] on [uint32_t]. *)

Record GLFWwindow : Type := mkWindow {
  framebufferWidth : Z;
  framebufferHeight : Z
}.

Definition std_clamp (v lo hi : Z) : Z :=
  if v <? lo then lo else if hi <? v then hi else v.

Definition chooseSwapExtent (window : GLFWwindow)
    (capabilities : VkSurfaceCapabilitiesKHR) : VkExtent2D :=
  if negb (width (currentExtent capabilities) =? UINT32_MAX)
  then currentExtent capabilities
  else
    let actualExtent :=
      mkExtent (u32 (framebufferWidth window)) (u32 (framebufferHeight window)) in
    mkExtent
      (std_clamp (width actualExtent)
         (width (minImageExtent capabilities))
         (width (maxImageExtent capabilities)))
      (std_clamp (height actualExtent)
         (height (minImageExtent capabilities))
         (height (maxImageExtent capabilities))).

(** ** [createSwapChain]

    [VkSwapchainCreateInfoKHR] with the members the function assigns;
    [pQueueFamilyIndices] is [None] for [nullptr] and [Some a] for a pointer
    to the array [a]. *)

Module VkSwapchainCreateInfoKHR.
Record t : Type := mk {
  surface : Z;
  minImageCount : Z;
  imageFormat : Z;
  imageColorSpace : Z;
  imageExtent : VkExtent2D;
  imageArrayLayers : Z;
  imageUsage : Z;
  imageSharingMode : VkSharingMode;
  queueFamilyIndexCount : Z;
  pQueueFamilyIndices : option (list Z);
  preTransform : Z;
  compositeAlpha : Z;
  presentMode : VkPresentModeKHR;
  clipped : bool;
  oldSwapChain : Z
}.
End VkSwapchainCreateInfoKHR.

(** The logical device: the answers of [vkCreateSwapchainKHR] ([Some] of the
    new handle on [VK_SUCCESS], [None] on any other code) and of
    [vkGetSwapchainImagesKHR]. *)
Record VkDevice : Type := mkDevice {
  vkCreateSwapchainKHR : VkSwapchainCreateInfoKHR.t -> option Z;
  vkGetSwapchainImagesKHR : Z -> list Z
}.

(** The members of the application object the function reads or writes. *)
Record HelloTriangleApplication : Type := mkApplication {
  window : GLFWwindow;
  surface : Z;
  device : VkDevice;
  physicalDevice : VkPhysicalDevice;
  swapChain : Z;
  swapChainImages : list Z;
  swapChainImageFormat : Z;
  swapChainExtent : VkExtent2D
}.

(** The image count statements of [createSwapChain]: the [uint32_t] sum
    and the comparison with a nonzero maximum. *)
Definition imageCount_of (capabilities : VkSurfaceCapabilitiesKHR) : Z :=
  let imageCount := u32 (minImageCount capabilities + 1) in
  if (maxImageCount capabilities >? 0)
     && (imageCount >? maxImageCount capabilities)
  then maxImageCount capabilities
  else imageCount.

(** The sharing-mode statements of [createSwapChain], from the
    declaration of [queueFamilyIndices] to the end of the [if]: sharing
    mode, [queueFamilyIndexCount] and [pQueueFamilyIndices].  The [if]
    compares the two [std::optional] members. *)
Definition createSwapChain_sharing (indices : QueueFamilyIndices)
    : result (VkSharingMode * Z * option (list Z)) :=
  graphics <- value (graphicsFamily indices) ;;
  present <- value (presentFamily indices) ;;
  let queueFamilyIndices := [graphics; present] in
  if bool_decide (graphicsFamily indices <> presentFamily indices)
  then Return (VK_SHARING_MODE_CONCURRENT, 2, Some queueFamilyIndices)
  else Return (VK_SHARING_MODE_EXCLUSIVE, 0, None).

(** The statements from the first line of [createSwapChain] to the
    assignment of [createInfo.oldSwapChain]: the structure handed to the
    create call. *)
Definition createSwapChain_createInfo (app : HelloTriangleApplication)
    : result VkSwapchainCreateInfoKHR.t :=
  let swapChainSupport := querySwapChainSupport (physicalDevice app) in
  surfaceFormat <- chooseSwapSurfaceFormat (formats swapChainSupport) ;;
  let presentMode := chooseSwapPresentMode (presentModes swapChainSupport) in
  let extent := chooseSwapExtent (window app) (capabilities swapChainSupport) in
  let imageCount := imageCount_of (capabilities swapChainSupport) in
  let indices := findQueueFamilies (physicalDevice app) in
  sharing <- createSwapChain_sharing indices ;;
  Return
    (VkSwapchainCreateInfoKHR.mk
       (surface app)
       imageCount
       (format surfaceFormat)
       (colorSpace surfaceFormat)
       extent
       1
       VK_IMAGE_USAGE_COLOR_ATTACHMENT_BIT
       (fst (fst sharing))
       (snd (fst sharing))
       (snd sharing)
       (currentTransform (capabilities swapChainSupport))
       VK_COMPOSITE_ALPHA_OPAQUE_BIT_KHR
       presentMode
       true
       VK_NULL_HANDLE).

Definition createSwapChain (app : HelloTriangleApplication)
    : result HelloTriangleApplication :=
  createInfo <- createSwapChain_createInfo app ;;
  match vkCreateSwapchainKHR (device app) createInfo with
  | None => Throw (runtime_error "failed to create swap chain!")
  | Some newSwapChain =>
      Return
        (mkApplication (window app) (surface app) (device app)
           (physicalDevice app)
           newSwapChain
           (vkGetSwapchainImagesKHR (device app) newSwapChain)
           (VkSwapchainCreateInfoKHR.imageFormat createInfo)
           (VkSwapchainCreateInfoKHR.imageExtent createInfo))
  end.

(** The application object with another handle in its [swapChain] member:
    the chain it holds when [createSwapChain] is entered. *)
Definition with_swapChain (previous : Z) (app : HelloTriangleApplication)
    : HelloTriangleApplication :=
  mkApplication (window app) (surface app) (device app) (physicalDevice app)
    previous (swapChainImages app) (swapChainImageFormat app)
    (swapChainExtent app).

(** ** Notions used to state the properties *)

(** The test [chooseSwapSurfaceFormat] makes on an entry. *)
Definition preferred (f : VkSurfaceFormatKHR) : bool :=
  (format f =? VK_FORMAT_B8G8R8A8_SRGB)
  && (colorSpace f =? VK_COLOR_SPACE_SRGB_NONLINEAR_KHR).

Definition graphics_capable (q : VkQueueFamilyProperties) : Prop :=
  graphics_bit_set q = true.

#[global] Instance graphics_capable_dec q : Decision (graphics_capable q).
Proof. unfold graphics_capable. apply _. Defined.

(** The index of the first family of a list that advertises graphics. *)
Definition first_graphics (fams : list VkQueueFamilyProperties) : option Z :=
  (fun kq : nat * VkQueueFamilyProperties => Z.of_nat (fst kq))
    <$> list_find graphics_capable fams.

(** No family with an index in [lo, stop] and below [n] can present to the
    surface. *)
Definition no_support (d : VkPhysicalDevice) (lo stop n : Z) : Prop :=
  forall j, lo <= j <= stop -> j < n -> surfaceSupportKHR d j = false.

(** What holds of the loop state [r] reached from the state with no
    graphics index, present index [p0] and counter [i0], over families
    indexed from [i0] up to [n]. *)
Definition scan_post (d : VkPhysicalDevice) (p0 : option Z) (i0 n : Z)
    (first : option Z) (r : QueueFamilyIndices * Z) : Prop :=
  i0 <= snd r <= n /\
  graphicsFamily (fst r) = first /\
  (forall g, graphicsFamily (fst r) = Some g -> snd r = g /\ g < n) /\
  (graphicsFamily (fst r) = None -> snd r = n) /\
  (forall p, presentFamily (fst r) = Some p ->
     (p0 = Some p /\ no_support d i0 (snd r) n) \/
     (i0 <= p <= snd r /\ p < n /\ surfaceSupportKHR d p = true /\
      no_support d (p + 1) (snd r) n)) /\
  (presentFamily (fst r) = None ->
     p0 = None /\ no_support d i0 (snd r) n).

(** ** Concrete inputs used by the examples below *)

Definition srgb_format : VkSurfaceFormatKHR :=
  mkSurfaceFormat VK_FORMAT_B8G8R8A8_SRGB VK_COLOR_SPACE_SRGB_NONLINEAR_KHR.

Definition unorm_format : VkSurfaceFormatKHR :=
  mkSurfaceFormat VK_FORMAT_B8G8R8A8_UNORM VK_COLOR_SPACE_SRGB_NONLINEAR_KHR.

Definition fixed_caps : VkSurfaceCapabilitiesKHR :=
  mkCapabilities 2 0 (mkExtent 800 600) (mkExtent 1 1) (mkExtent 4096 4096) 1.

Definition free_caps : VkSurfaceCapabilitiesKHR :=
  mkCapabilities 3 3 (mkExtent UINT32_MAX UINT32_MAX) (mkExtent 640 480)
    (mkExtent 1920 1080) 1.

(** A device with one graphics-only family, a surface it cannot present to,
    and a usable swap chain. *)
Definition graphics_only_device : VkPhysicalDevice :=
  mkPhysicalDevice
    [mkQueueFamily VK_QUEUE_GRAPHICS_BIT]
    (fun _ => false)
    fixed_caps
    [srgb_format]
    [VK_PRESENT_MODE_FIFO_KHR]
    [VK_KHR_SWAPCHAIN_EXTENSION_NAME].

Definition null_device : VkDevice :=
  mkDevice (fun _ => None) (fun _ => []).

(** A device whose family 0 can only present and whose family 1 can only do
    graphics. *)
Definition split_device : VkPhysicalDevice :=
  mkPhysicalDevice
    [mkQueueFamily 0; mkQueueFamily VK_QUEUE_GRAPHICS_BIT]
    (fun i => i =? 0)
    fixed_caps
    [unorm_format; srgb_format]
    [VK_PRESENT_MODE_FIFO_KHR; VK_PRESENT_MODE_MAILBOX_KHR]
    [VK_KHR_SWAPCHAIN_EXTENSION_NAME].

(** A device whose family 0 can neither draw nor present and whose
    family 1 can do both. *)
Definition combined_device : VkPhysicalDevice :=
  mkPhysicalDevice
    [mkQueueFamily 0; mkQueueFamily VK_QUEUE_GRAPHICS_BIT; mkQueueFamily 0]
    (fun i => (i =? 1) || (i =? 2))
    free_caps
    [srgb_format]
    [VK_PRESENT_MODE_FIFO_KHR]
    [VK_KHR_SWAPCHAIN_EXTENSION_NAME].

(** A device whose two families can both present and whose family 1 alone
    can draw. *)
Definition overwrite_device : VkPhysicalDevice :=
  mkPhysicalDevice
    [mkQueueFamily 0; mkQueueFamily VK_QUEUE_GRAPHICS_BIT]
    (fun _ => true)
    fixed_caps
    [srgb_format]
    [VK_PRESENT_MODE_FIFO_KHR]
    [VK_KHR_SWAPCHAIN_EXTENSION_NAME].

(** A device whose family 0 can only draw and whose family 1 can only
    present. *)
Definition graphics_first_device : VkPhysicalDevice :=
  mkPhysicalDevice
    [mkQueueFamily VK_QUEUE_GRAPHICS_BIT; mkQueueFamily 0]
    (fun i => i =? 1)
    fixed_caps
    [srgb_format]
    [VK_PRESENT_MODE_FIFO_KHR]
    [VK_KHR_SWAPCHAIN_EXTENSION_NAME].

Definition application_on (physicalDevice : VkPhysicalDevice)
    (swapChain : Z) : HelloTriangleApplication :=
  mkApplication (mkWindow 3000 100) 1 null_device physicalDevice swapChain []
    0 (mkExtent 0 0).

(** ** Further functions of the program and device variants

    A device that differs from [d] in the families it reports, and one that
    differs in its answers on surface support. *)

Definition with_queueFamilies (queueFamilies : list VkQueueFamilyProperties)
    (d : VkPhysicalDevice) : VkPhysicalDevice :=
  mkPhysicalDevice queueFamilies (surfaceSupportKHR d)
    (surfaceCapabilitiesKHR d) (surfaceFormatsKHR d)
    (surfacePresentModesKHR d) (deviceExtensionProperties d).

Definition with_surfaceSupport (support : Z -> bool)
    (d : VkPhysicalDevice) : VkPhysicalDevice :=
  mkPhysicalDevice (queueFamilyProperties d) support
    (surfaceCapabilitiesKHR d) (surfaceFormatsKHR d)
    (surfacePresentModesKHR d) (deviceExtensionProperties d).

(** ** [checkValidationLayerSupport]

    [availableLayers] holds the layer names that
    [vkEnumerateInstanceLayerProperties] reports; [strcmp(a, b) == 0] is
    equality of the two names.  The inner loop computes [layerFound], the
    outer one returns [false] at the first layer that was not found. *)

Definition validationLayers : list string := ["VK_LAYER_KHRONOS_validation"].

Fixpoint layerFound_loop (layerName : string) (availableLayers : list string)
    : bool :=
  match availableLayers with
  | [] => false
  | layerProperties :: rest =>
      if String.eqb layerName layerProperties then true
      else layerFound_loop layerName rest
  end.

Fixpoint checkValidationLayerSupport_loop (layers availableLayers : list string)
    : bool :=
  match layers with
  | [] => true
  | layerName :: rest =>
      let layerFound := layerFound_loop layerName availableLayers in
      if negb layerFound then false
      else checkValidationLayerSupport_loop rest availableLayers
  end.

Definition checkValidationLayerSupport (availableLayers : list string) : bool :=
  checkValidationLayerSupport_loop validationLayers availableLayers.

(** A logical device whose create call succeeds with handle 42 and three
    images, the application before its first [createSwapChain] and the
    application after it. *)
Definition accepting_device : VkDevice :=
  mkDevice (fun _ => Some 42) (fun _ => [1; 2; 3]).

Definition first_application : HelloTriangleApplication :=
  mkApplication (mkWindow 3000 100) 1 accepting_device split_device
    VK_NULL_HANDLE [] 0 (mkExtent 0 0).

Definition built_application : HelloTriangleApplication :=
  mkApplication (mkWindow 3000 100) 1 accepting_device split_device 42
    [1; 2; 3] VK_FORMAT_B8G8R8A8_SRGB (mkExtent 800 600).

(** The create-info [createSwapChain] builds for [first_application]. *)
Definition first_createInfo : VkSwapchainCreateInfoKHR.t :=
  VkSwapchainCreateInfoKHR.mk 1 3 VK_FORMAT_B8G8R8A8_SRGB
    VK_COLOR_SPACE_SRGB_NONLINEAR_KHR (mkExtent 800 600) 1
    VK_IMAGE_USAGE_COLOR_ATTACHMENT_BIT VK_SHARING_MODE_CONCURRENT 2
    (Some [1; 0]) 1 VK_COMPOSITE_ALPHA_OPAQUE_BIT_KHR
    VK_PRESENT_MODE_MAILBOX_KHR true VK_NULL_HANDLE.

(** ** Instance creation and the debug messenger

    [enableValidationLayers] is fixed at compile time by [NDEBUG]; the
    functions that read it take it as an argument.  The numeric values are
    those of the Vulkan headers. *)

Definition VK_SUCCESS : Z := 0.
Definition VK_ERROR_EXTENSION_NOT_PRESENT : Z := -7.
Definition VK_FALSE : Z := 0.
Definition VK_EXT_DEBUG_UTILS_EXTENSION_NAME : string := "VK_EXT_debug_utils".
Definition VK_DEBUG_UTILS_MESSAGE_SEVERITY_VERBOSE_BIT_EXT : Z := 1.
Definition VK_DEBUG_UTILS_MESSAGE_SEVERITY_WARNING_BIT_EXT : Z := 256.
Definition VK_DEBUG_UTILS_MESSAGE_SEVERITY_ERROR_BIT_EXT : Z := 4096.
Definition VK_DEBUG_UTILS_MESSAGE_TYPE_GENERAL_BIT_EXT : Z := 1.
Definition VK_DEBUG_UTILS_MESSAGE_TYPE_VALIDATION_BIT_EXT : Z := 2.
Definition VK_DEBUG_UTILS_MESSAGE_TYPE_PERFORMANCE_BIT_EXT : Z := 4.

(** [VK_MAKE_VERSION(major, minor, patch)]. *)
Definition VK_MAKE_VERSION (major minor patch : Z) : Z :=
  Z.lor (Z.lor (Z.shiftl major 22) (Z.shiftl minor 12)) patch.

Definition VK_API_VERSION_1_0 : Z := VK_MAKE_VERSION 1 0 0.

(** [debugCallback]: the text it writes to [std::cerr] and its return
    value. *)
Definition debugCallback (messageSeverity messageType : Z) (pMessage : string)
    : string * Z :=
  (("validation layer: " ++ pMessage ++ String (Ascii.ascii_of_nat 10) "")%string,
   VK_FALSE).

Record VkDebugUtilsMessengerCreateInfoEXT : Type := mkDebugCreateInfo {
  messageSeverity : Z;
  messageType : Z;
  pfnUserCallback : Z -> Z -> string -> string * Z
}.

Definition populateDebugMessengerCreateInfo
    : VkDebugUtilsMessengerCreateInfoEXT :=
  mkDebugCreateInfo
    (Z.lor
       (Z.lor VK_DEBUG_UTILS_MESSAGE_SEVERITY_VERBOSE_BIT_EXT
          VK_DEBUG_UTILS_MESSAGE_SEVERITY_WARNING_BIT_EXT)
       VK_DEBUG_UTILS_MESSAGE_SEVERITY_ERROR_BIT_EXT)
    (Z.lor
       (Z.lor VK_DEBUG_UTILS_MESSAGE_TYPE_GENERAL_BIT_EXT
          VK_DEBUG_UTILS_MESSAGE_TYPE_VALIDATION_BIT_EXT)
       VK_DEBUG_UTILS_MESSAGE_TYPE_PERFORMANCE_BIT_EXT)
    debugCallback.

Record VkApplicationInfo : Type := mkApplicationInfo {
  pApplicationName : string;
  applicationVersion : Z;
  pEngineName : string;
  engineVersion : Z;
  apiVersion : Z
}.

(** [ppEnabledLayerNames] and [pNext] are [None] for a null pointer. *)
Record VkInstanceCreateInfo : Type := mkInstanceCreateInfo {
  pApplicationInfo : VkApplicationInfo;
  enabledExtensionCount : Z;
  ppEnabledExtensionNames : list string;
  enabledLayerCount : Z;
  ppEnabledLayerNames : option (list string);
  pNext : option VkDebugUtilsMessengerCreateInfoEXT
}.

(** An instance: what [vkGetInstanceProcAddr] answers for a name, [None]
    for a null pointer.  The entry point takes the create-info and the
    current content of [*pDebugMessenger] and gives the result code and the
    new content. *)
Record VkInstance : Type := mkInstance {
  vkGetInstanceProcAddr :
    string -> option (VkDebugUtilsMessengerCreateInfoEXT -> Z -> Z * Z)
}.

(** What the window library and the Vulkan loader answer before an
    instance exists: [glfwGetRequiredInstanceExtensions],
    [vkEnumerateInstanceLayerProperties] (the layer names) and
    [vkCreateInstance] ([Some] of the instance on [VK_SUCCESS]). *)
Record VulkanLoader : Type := mkLoader {
  glfwGetRequiredInstanceExtensions : list string;
  vkEnumerateInstanceLayerProperties : list string;
  vkCreateInstance : VkInstanceCreateInfo -> option VkInstance
}.

Definition getRequiredExtensions (enableValidationLayers : bool)
    (loader : VulkanLoader) : list string :=
  let extensions := glfwGetRequiredInstanceExtensions loader in
  if enableValidationLayers
  then (extensions ++ [VK_EXT_DEBUG_UTILS_EXTENSION_NAME])%list
  else extensions.

(** The structure [createInstance] hands to [vkCreateInstance]. *)
Definition createInstance_createInfo (enableValidationLayers : bool)
    (loader : VulkanLoader) : VkInstanceCreateInfo :=
  let appInfo :=
    mkApplicationInfo "Hello Triangle" (VK_MAKE_VERSION 1 0 0) "No Engine"
      (VK_MAKE_VERSION 1 0 0) VK_API_VERSION_1_0 in
  let extensions := getRequiredExtensions enableValidationLayers loader in
  if enableValidationLayers
  then
    mkInstanceCreateInfo appInfo (u32 (Z.of_nat (length extensions)))
      extensions (u32 (Z.of_nat (length validationLayers)))
      (Some validationLayers) (Some populateDebugMessengerCreateInfo)
  else
    mkInstanceCreateInfo appInfo (u32 (Z.of_nat (length extensions)))
      extensions 0 None None.

Definition createInstance (enableValidationLayers : bool)
    (loader : VulkanLoader) : result VkInstance :=
  if enableValidationLayers
     && negb (checkValidationLayerSupport
                (vkEnumerateInstanceLayerProperties loader))
  then Throw (runtime_error "validation layers requested, but not available!")
  else
    match vkCreateInstance loader
            (createInstance_createInfo enableValidationLayers loader) with
    | Some instance => Return instance
    | None => Throw (runtime_error "failed to create instance!")
    end.

(** [CreateDebugUtilsMessengerEXT]: the result code and the content of
    [*pDebugMessenger] after the call. *)
Definition CreateDebugUtilsMessengerEXT (instance : VkInstance)
    (pCreateInfo : VkDebugUtilsMessengerCreateInfoEXT) (debugMessenger : Z)
    : Z * Z :=
  match vkGetInstanceProcAddr instance "vkCreateDebugUtilsMessengerEXT" with
  | Some func => func pCreateInfo debugMessenger
  | None => (VK_ERROR_EXTENSION_NOT_PRESENT, debugMessenger)
  end.

(** [setupDebugMessenger]: the content of the member [debugMessenger]
    after the call. *)
Definition setupDebugMessenger (enableValidationLayers : bool)
    (instance : VkInstance) (debugMessenger : Z) : result Z :=
  if negb enableValidationLayers then Return debugMessenger
  else
    let createInfo := populateDebugMessengerCreateInfo in
    let call := CreateDebugUtilsMessengerEXT instance createInfo debugMessenger in
    if negb (fst call =? VK_SUCCESS)
    then Throw (runtime_error "failed to set up debug messenger!")
    else Return (snd call).

(** ** [createSurface], [createLogicalDevice] and [initVulkan]

    The text of [createLogicalDevice] spells [std::set] as [atd::set] and
    takes the address of [queuePriority] once before the variable is
    declared; the set is built and not used again, and the create-info the
    function hands to [vkCreateDevice] is the one left by its last
    assignments: [pQueueCreateInfos = &queueCreateInfo] with
    [queueCreateInfoCount = 1], after [queueCreateInfo.pQueuePriorities] was
    set to the address of [queuePriority = 1.0f]. *)

(** [VkPhysicalDeviceFeatures], as the list of the members that are
    [VK_TRUE]; [deviceFeatures{}] has none. *)
Record VkPhysicalDeviceFeatures : Type := mkFeatures {
  enabledFeatures : list string
}.

Module VkDeviceQueueCreateInfo.
Record t : Type := mk {
  queueFamilyIndex : Z;
  queueCount : Z;
  pQueuePriorities : list QArith_base.Q
}.
End VkDeviceQueueCreateInfo.

Module VkDeviceCreateInfo.
Record t : Type := mk {
  queueCreateInfoCount : Z;
  pQueueCreateInfos : list VkDeviceQueueCreateInfo.t;
  pEnabledFeatures : VkPhysicalDeviceFeatures;
  enabledExtensionCount : Z;
  ppEnabledExtensionNames : list string;
  enabledLayerCount : Z;
  ppEnabledLayerNames : option (list string)
}.
End VkDeviceCreateInfo.

(** The answers of [vkCreateDevice] ([Some] of the logical device on
    [VK_SUCCESS]) and of [vkGetDeviceQueue] (by device, family index and
    queue index). *)
Record DeviceDriver : Type := mkDeviceDriver {
  vkCreateDevice : VkPhysicalDevice -> VkDeviceCreateInfo.t -> option VkDevice;
  vkGetDeviceQueue : VkDevice -> Z -> Z -> Z
}.

(** The create-info of [createLogicalDevice] for graphics family index
    [graphics]. *)
Definition createLogicalDevice_createInfo (enableValidationLayers : bool)
    (graphics : Z) : VkDeviceCreateInfo.t :=
  let queuePriority := QArith_base.Qmake 1 1 in
  let queueCreateInfo :=
    VkDeviceQueueCreateInfo.mk graphics 1 [queuePriority] in
  let deviceFeatures := mkFeatures [] in
  VkDeviceCreateInfo.mk 1 [queueCreateInfo] deviceFeatures
    (u32 (Z.of_nat (length deviceExtensions))) deviceExtensions
    (if enableValidationLayers
     then u32 (Z.of_nat (length validationLayers)) else 0)
    (if enableValidationLayers then Some validationLayers else None).

(** [createLogicalDevice]: the members [device], [graphicsQueue] and
    [presentQueue] after the call. *)
Definition createLogicalDevice (enableValidationLayers : bool)
    (driver : DeviceDriver) (physicalDevice : VkPhysicalDevice)
    : result (VkDevice * Z * Z) :=
  let indices := findQueueFamilies physicalDevice in
  graphics <- value (graphicsFamily indices) ;;
  present <- value (presentFamily indices) ;;
  let uniqueQueueFamilies : gset Z := {[ graphics; present ]} in
  let createInfo :=
    createLogicalDevice_createInfo enableValidationLayers graphics in
  match vkCreateDevice driver physicalDevice createInfo with
  | None => Throw (runtime_error "failed to create a logical device!")
  | Some device =>
      Return (device,
              vkGetDeviceQueue driver device graphics 0,
              vkGetDeviceQueue driver device present 0)
  end.

(** What surrounds the program during [initVulkan]: the loader, the answer
    of [glfwCreateWindowSurface] ([Some] of the surface on [VK_SUCCESS]),
    the physical devices [vkEnumeratePhysicalDevices] lists for an instance,
    each with its answers for the surface, and the device driver. *)
Record VulkanEnvironment : Type := mkEnvironment {
  loader : VulkanLoader;
  glfwCreateWindowSurface : VkInstance -> GLFWwindow -> option Z;
  vkEnumeratePhysicalDevices : VkInstance -> Z -> list VkPhysicalDevice;
  deviceDriver : DeviceDriver
}.

Definition createSurface (env : VulkanEnvironment) (instance : VkInstance)
    (window : GLFWwindow) : result Z :=
  match glfwCreateWindowSurface env instance window with
  | Some surface => Return surface
  | None => Throw (runtime_error "failed to create a window surface!")
  end.

(** The members of the application object that [HelloTriangleApplication]
    above leaves out, with that record for the others. *)
Record VulkanObjects : Type := mkObjects {
  instance : VkInstance;
  debugMessenger : Z;
  graphicsQueue : Z;
  presentQueue : Z;
  application : HelloTriangleApplication
}.

(** [initVulkan], entered with the window of [initWindow] in [this] and
    with whatever the members not yet assigned hold. *)
Definition initVulkan (enableValidationLayers : bool) (env : VulkanEnvironment)
    (debugMessenger0 : Z) (this : HelloTriangleApplication)
    : result VulkanObjects :=
  instance <- createInstance enableValidationLayers (loader env) ;;
  debugMessenger <-
    setupDebugMessenger enableValidationLayers instance debugMessenger0 ;;
  surface <- createSurface env instance (window this) ;;
  physicalDevice <-
    pickPhysicalDevice (vkEnumeratePhysicalDevices env instance surface) ;;
  logical <-
    createLogicalDevice enableValidationLayers (deviceDriver env)
      physicalDevice ;;
  app <-
    createSwapChain
      (mkApplication (window this) surface (fst (fst logical)) physicalDevice
         (swapChain this) (swapChainImages this) (swapChainImageFormat this)
         (swapChainExtent this)) ;;
  Return
    (mkObjects instance debugMessenger (snd (fst logical)) (snd logical) app).

(** An instance with a debug messenger entry point, a loader and an
    environment in which every call succeeds and the enumeration lists
    [graphics_only_device] before [split_device], and one that lists a
    device without formats before [split_device]. *)
Definition sample_instance : VkInstance :=
  mkInstance (fun _ => Some (fun _ _ => (VK_SUCCESS, 9))).

Definition sample_loader : VulkanLoader :=
  mkLoader ["VK_KHR_surface"] ["VK_LAYER_KHRONOS_validation"]
    (fun _ => Some sample_instance).

Definition sample_driver : DeviceDriver :=
  mkDeviceDriver (fun _ _ => Some accepting_device)
    (fun _ family _ => family + 100).

Definition formatless_device : VkPhysicalDevice :=
  mkPhysicalDevice [mkQueueFamily VK_QUEUE_GRAPHICS_BIT] (fun _ => true)
    fixed_caps [] [VK_PRESENT_MODE_FIFO_KHR] [VK_KHR_SWAPCHAIN_EXTENSION_NAME].

Definition stuck_environment : VulkanEnvironment :=
  mkEnvironment sample_loader (fun _ _ => Some 1)
    (fun _ _ => [graphics_only_device; split_device]) sample_driver.

Definition working_environment : VulkanEnvironment :=
  mkEnvironment sample_loader (fun _ _ => Some 1)
    (fun _ _ => [formatless_device; split_device]) sample_driver.

Definition working_objects : VulkanObjects :=
  mkObjects sample_instance 9 101 100 built_application.

(** * Properties *)

(** ** Arithmetic helpers *)

Lemma u32_small (z : Z) : 0 <= z <= UINT32_MAX -> u32 z = z.
Proof.
  unfold u32, UINT32_MAX. intros Hz. apply Z.mod_small. lia.
Qed.

Lemma std_clamp_inside (v lo hi : Z) :
  lo <= hi -> std_clamp v lo hi = Z.max lo (Z.min v hi).
Proof.
  intros Hle. unfold std_clamp.
  destruct (Z.ltb_spec v lo); [lia|].
  destruct (Z.ltb_spec hi v); lia.
Qed.

(** ** Completeness of the queue indices *)

(** C3 (evaluation of the code): with a graphics index and no present
    index, [isComplete] answers [true]; the device that produces these
    indices passes [isDeviceSuitable], and [createSwapChain] then leaves by
    [bad_optional_access] at [presentFamily.value()]. *)
Theorem isComplete_without_presentFamily :
  isComplete (mkIndices (Some 0) None) = true /\
  findQueueFamilies graphics_only_device = mkIndices (Some 0) None /\
  isDeviceSuitable graphics_only_device = true /\
  createSwapChain (application_on graphics_only_device VK_NULL_HANDLE)
  = Throw bad_optional_access.
Proof.
  repeat split; vm_compute; reflexivity.
Qed.

(** [isComplete] is decided by the graphics index alone. *)
Lemma isComplete_graphicsFamily (indices : QueueFamilyIndices) :
  isComplete indices = true <-> graphicsFamily indices <> None.
Proof.
  unfold isComplete. destruct (graphicsFamily indices); simpl; split;
    congruence.
Qed.

(** ** Presentation mode *)

Lemma chooseSwapPresentMode_cases (modes : list VkPresentModeKHR) :
  (VK_PRESENT_MODE_MAILBOX_KHR ∈ modes /\
   chooseSwapPresentMode modes = VK_PRESENT_MODE_MAILBOX_KHR) \/
  ((VK_PRESENT_MODE_MAILBOX_KHR ∉ modes) /\
   chooseSwapPresentMode modes = VK_PRESENT_MODE_FIFO_KHR).
Proof.
  induction modes as [|m modes IH]; simpl.
  - right. split; [apply not_elem_of_nil | reflexivity].
  - case_bool_decide as Hm.
    + left. split; [apply elem_of_cons; left; congruence | exact Hm].
    + destruct IH as [[Hin Heq]|[Hnin Heq]].
      * left. split; [apply elem_of_cons; right; exact Hin | exact Heq].
      * right. split; [|exact Heq].
        intros Hin. apply elem_of_cons in Hin as [Hhd|Htl]; auto.
Qed.

(** C5: [chooseSwapPresentMode] returns the mailbox mode when it occurs
    anywhere in the list and the FIFO mode otherwise; it is a total function
    and its value is always one of these two modes. *)
Theorem chooseSwapPresentMode_mailbox_else_fifo (modes : list VkPresentModeKHR) :
  (VK_PRESENT_MODE_MAILBOX_KHR ∈ modes ->
   chooseSwapPresentMode modes = VK_PRESENT_MODE_MAILBOX_KHR) /\
  (VK_PRESENT_MODE_MAILBOX_KHR ∉ modes ->
   chooseSwapPresentMode modes = VK_PRESENT_MODE_FIFO_KHR) /\
  (chooseSwapPresentMode modes = VK_PRESENT_MODE_MAILBOX_KHR \/
   chooseSwapPresentMode modes = VK_PRESENT_MODE_FIFO_KHR).
Proof.
  destruct (chooseSwapPresentMode_cases modes) as [[Hin Heq]|[Hnin Heq]].
  - split; [auto|]. split; [intros Hnin; contradiction | left; exact Heq].
  - split; [intros Hin; contradiction|]. split; [auto | right; exact Heq].
Qed.

Lemma chooseSwapPresentMode_mailbox_else_fifo_witness :
  chooseSwapPresentMode
    [VK_PRESENT_MODE_IMMEDIATE_KHR; VK_PRESENT_MODE_FIFO_KHR;
     VK_PRESENT_MODE_MAILBOX_KHR] = VK_PRESENT_MODE_MAILBOX_KHR /\
  chooseSwapPresentMode
    [VK_PRESENT_MODE_IMMEDIATE_KHR; VK_PRESENT_MODE_FIFO_RELAXED_KHR]
  = VK_PRESENT_MODE_FIFO_KHR.
Proof.
  split.
  - apply (proj1 (chooseSwapPresentMode_mailbox_else_fifo _)).
    do 2 (apply elem_of_cons; right). apply elem_of_cons; left; reflexivity.
  - apply (proj1 (proj2 (chooseSwapPresentMode_mailbox_else_fifo _))).
    intros Hin. repeat (apply elem_of_cons in Hin as [Hin|Hin]; [discriminate|]).
    apply elem_of_nil in Hin. exact Hin.
Defined.

(** ** Extent *)

(** With a width other than the [uint32_t] maximum the first branch is
    taken. *)
Lemma chooseSwapExtent_explicit (window : GLFWwindow)
    (caps : VkSurfaceCapabilitiesKHR) :
  width (currentExtent caps) <> UINT32_MAX ->
  chooseSwapExtent window caps = currentExtent caps.
Proof.
  intros Hw. unfold chooseSwapExtent.
  destruct (Z.eqb_spec (width (currentExtent caps)) UINT32_MAX);
    [contradiction | reflexivity].
Qed.

(** C10: the branch of [chooseSwapExtent] is decided by the width of
    [currentExtent] alone.  When the width differs from the [uint32_t]
    maximum, [currentExtent] is returned as it is, whatever its height, in
    particular when the height is the maximum; when the width is the
    maximum, the height of [currentExtent] has no influence on the result. *)
Theorem chooseSwapExtent_width_decides (window : GLFWwindow)
    (caps : VkSurfaceCapabilitiesKHR) :
  (width (currentExtent caps) <> UINT32_MAX ->
   chooseSwapExtent window caps = currentExtent caps) /\
  (forall w lo hi t a b, w <> UINT32_MAX ->
   chooseSwapExtent window
     (mkCapabilities a b (mkExtent w UINT32_MAX) lo hi t)
   = mkExtent w UINT32_MAX) /\
  (forall h h' lo hi t a b,
   chooseSwapExtent window
     (mkCapabilities a b (mkExtent UINT32_MAX h) lo hi t)
   = chooseSwapExtent window
       (mkCapabilities a b (mkExtent UINT32_MAX h') lo hi t)).
Proof.
  split; [|split].
  - apply chooseSwapExtent_explicit.
  - intros w lo hi t a b Hw.
    apply (chooseSwapExtent_explicit window
             (mkCapabilities a b (mkExtent w UINT32_MAX) lo hi t)).
    exact Hw.
  - intros. reflexivity.
Qed.

Lemma chooseSwapExtent_width_decides_witness :
  chooseSwapExtent (mkWindow 1024 768)
    (mkCapabilities 2 8 (mkExtent 800 UINT32_MAX) (mkExtent 1 1)
       (mkExtent 4096 4096) 1)
  = mkExtent 800 UINT32_MAX.
Proof.
  refine (proj1 (chooseSwapExtent_width_decides (mkWindow 1024 768)
    (mkCapabilities 2 8 (mkExtent 800 UINT32_MAX) (mkExtent 1 1)
       (mkExtent 4096 4096) 1)) _).
  simpl. unfold UINT32_MAX. lia.
Defined.

(** C4: when the width of [currentExtent] is not the sentinel (the test
    the function makes), [chooseSwapExtent] returns [currentExtent] as it
    is, for any framebuffer size; when it is the sentinel, it returns the
    framebuffer size (converted to [uint32_t]) with width and height each
    passed through [std::clamp] on its own bounds, which for bounds with
    [min <= max] is the value clamped into the inclusive range. *)
Theorem chooseSwapExtent_current_or_clamped (window : GLFWwindow)
    (caps : VkSurfaceCapabilitiesKHR) :
  (width (currentExtent caps) <> UINT32_MAX ->
   chooseSwapExtent window caps = currentExtent caps) /\
  (width (currentExtent caps) = UINT32_MAX ->
   chooseSwapExtent window caps =
     mkExtent
       (std_clamp (u32 (framebufferWidth window))
          (width (minImageExtent caps)) (width (maxImageExtent caps)))
       (std_clamp (u32 (framebufferHeight window))
          (height (minImageExtent caps)) (height (maxImageExtent caps)))
   /\ (width (minImageExtent caps) <= width (maxImageExtent caps) ->
       width (chooseSwapExtent window caps) =
         Z.max (width (minImageExtent caps))
           (Z.min (u32 (framebufferWidth window))
              (width (maxImageExtent caps))))
   /\ (height (minImageExtent caps) <= height (maxImageExtent caps) ->
       height (chooseSwapExtent window caps) =
         Z.max (height (minImageExtent caps))
           (Z.min (u32 (framebufferHeight window))
              (height (maxImageExtent caps))))).
Proof.
  split.
  - apply chooseSwapExtent_explicit.
  - intros Hw.
    assert (Heq : chooseSwapExtent window caps =
      mkExtent
       (std_clamp (u32 (framebufferWidth window))
          (width (minImageExtent caps)) (width (maxImageExtent caps)))
       (std_clamp (u32 (framebufferHeight window))
          (height (minImageExtent caps)) (height (maxImageExtent caps)))).
    { unfold chooseSwapExtent. rewrite Hw. reflexivity. }
    split; [exact Heq|].
    rewrite Heq; simpl.
    split; intros Hle; apply std_clamp_inside; exact Hle.
Qed.

Lemma chooseSwapExtent_current_or_clamped_witness :
  chooseSwapExtent (mkWindow 3000 100) fixed_caps = mkExtent 800 600 /\
  width (chooseSwapExtent (mkWindow 3000 100) free_caps) = 1920 /\
  height (chooseSwapExtent (mkWindow 3000 100) free_caps) = 480.
Proof.
  split.
  - refine (proj1 (chooseSwapExtent_current_or_clamped (mkWindow 3000 100)
      fixed_caps) _).
    simpl. unfold UINT32_MAX. lia.
  - destruct (proj2 (chooseSwapExtent_current_or_clamped (mkWindow 3000 100)
      free_caps) eq_refl) as (_ & Hw & Hh).
    split.
    + rewrite Hw; [reflexivity | simpl; lia].
    + rewrite Hh; [reflexivity | simpl; lia].
Defined.

(** ** The create-info of [createSwapChain] *)

Lemma querySwapChainSupport_fields (d : VkPhysicalDevice) :
  querySwapChainSupport d =
  mkSupport (surfaceCapabilitiesKHR d) (surfaceFormatsKHR d)
    (surfacePresentModesKHR d).
Proof.
  unfold querySwapChainSupport.
  destruct (surfaceFormatsKHR d), (surfacePresentModesKHR d); reflexivity.
Qed.

Lemma createSwapChain_sharing_Return (g p : Z) :
  createSwapChain_sharing (mkIndices (Some g) (Some p)) =
  Return (if bool_decide (g = p)
          then (VK_SHARING_MODE_EXCLUSIVE, 0, None)
          else (VK_SHARING_MODE_CONCURRENT, 2, Some [g; p])).
Proof.
  unfold createSwapChain_sharing; simpl.
  repeat case_bool_decide; congruence.
Qed.

(** With a selected format and both queue indices, the function reaches the
    create call with this structure. *)
Lemma createSwapChain_createInfo_Return (app : HelloTriangleApplication)
    (sf : VkSurfaceFormatKHR) (g p : Z) :
  chooseSwapSurfaceFormat (surfaceFormatsKHR (physicalDevice app)) = Return sf ->
  findQueueFamilies (physicalDevice app) = mkIndices (Some g) (Some p) ->
  let caps := surfaceCapabilitiesKHR (physicalDevice app) in
  let sharing :=
    if bool_decide (g = p)
    then (VK_SHARING_MODE_EXCLUSIVE, 0, None)
    else (VK_SHARING_MODE_CONCURRENT, 2, Some [g; p]) in
  createSwapChain_createInfo app =
  Return
    (VkSwapchainCreateInfoKHR.mk (surface app) (imageCount_of caps)
       (format sf) (colorSpace sf) (chooseSwapExtent (window app) caps) 1
       VK_IMAGE_USAGE_COLOR_ATTACHMENT_BIT
       (fst (fst sharing)) (snd (fst sharing)) (snd sharing)
       (currentTransform caps) VK_COMPOSITE_ALPHA_OPAQUE_BIT_KHR
       (chooseSwapPresentMode (surfacePresentModesKHR (physicalDevice app)))
       true VK_NULL_HANDLE).
Proof.
  intros Hsf Hidx caps sharing.
  unfold createSwapChain_createInfo.
  rewrite querySwapChainSupport_fields; simpl.
  rewrite Hsf; simpl. rewrite Hidx, createSwapChain_sharing_Return; simpl.
  reflexivity.
Qed.

(** Whatever the function hands to the create call carries the null handle
    as [oldSwapChain]. *)
Lemma createSwapChain_createInfo_oldSwapChain (app : HelloTriangleApplication)
    (ci : VkSwapchainCreateInfoKHR.t) :
  createSwapChain_createInfo app = Return ci ->
  VkSwapchainCreateInfoKHR.oldSwapChain ci = VK_NULL_HANDLE.
Proof.
  unfold createSwapChain_createInfo.
  destruct (chooseSwapSurfaceFormat _); simpl; try discriminate.
  destruct (createSwapChain_sharing _); simpl; try discriminate.
  intros [= <-]. reflexivity.
Qed.

(** C7: the image count requested from the create call is the [uint32_t]
    sum [minImageCount + 1] (the integer [minImageCount + 1] for every
    minimum below the [uint32_t] maximum), except that a nonzero
    [maxImageCount] smaller than it replaces it; a zero [maxImageCount]
    never does. *)
Theorem createSwapChain_imageCount (caps : VkSurfaceCapabilitiesKHR) :
  0 <= maxImageCount caps ->
  let count := u32 (minImageCount caps + 1) in
  (maxImageCount caps = 0 -> imageCount_of caps = count) /\
  (maxImageCount caps <> 0 -> count <= maxImageCount caps ->
   imageCount_of caps = count) /\
  (maxImageCount caps <> 0 -> maxImageCount caps < count ->
   imageCount_of caps = maxImageCount caps) /\
  (0 <= minImageCount caps < UINT32_MAX -> count = minImageCount caps + 1) /\
  (forall app sf g p,
   surfaceCapabilitiesKHR (physicalDevice app) = caps ->
   chooseSwapSurfaceFormat (surfaceFormatsKHR (physicalDevice app))
     = Return sf ->
   findQueueFamilies (physicalDevice app) = mkIndices (Some g) (Some p) ->
   exists ci, createSwapChain_createInfo app = Return ci /\
     VkSwapchainCreateInfoKHR.minImageCount ci = imageCount_of caps).
Proof.
  intros Hmax count. unfold imageCount_of. fold count.
  repeat split.
  - intros ->. reflexivity.
  - intros _ Hle.
    destruct (Z.gtb_spec count (maxImageCount caps)); [lia|].
    rewrite andb_false_r. reflexivity.
  - intros Hne Hlt.
    destruct (Z.gtb_spec (maxImageCount caps) 0); [|lia].
    destruct (Z.gtb_spec count (maxImageCount caps)); [reflexivity | lia].
  - intros Hmin. unfold count. apply u32_small. lia.
  - intros app sf g p <- Hsf Hidx.
    eexists. split.
    + apply (createSwapChain_createInfo_Return app sf g p Hsf Hidx).
    + reflexivity.
Qed.

Lemma createSwapChain_imageCount_witness :
  imageCount_of fixed_caps = 3 /\ imageCount_of free_caps = 3 /\
  exists ci,
    createSwapChain_createInfo (application_on combined_device VK_NULL_HANDLE)
      = Return ci /\
    VkSwapchainCreateInfoKHR.minImageCount ci = 3.
Proof.
  split; [|split].
  - destruct (createSwapChain_imageCount fixed_caps) as (H0 & _);
      [simpl; lia|].
    exact (H0 eq_refl).
  - destruct (createSwapChain_imageCount free_caps) as (_ & _ & H2 & _);
      [simpl; lia|].
    rewrite H2; [reflexivity | simpl; lia | vm_compute; reflexivity].
  - destruct (createSwapChain_imageCount free_caps) as (_ & _ & _ & _ & H);
      [simpl; lia|].
    destruct (H (application_on combined_device VK_NULL_HANDLE) srgb_format
                1 1 eq_refl eq_refl eq_refl) as (ci & Hci & Hcount).
    exists ci. split; [exact Hci|]. rewrite Hcount. reflexivity.
Defined.

(** C6: for resolved indices [graphics] and [present], the builder
    declares concurrent sharing with [queueFamilyIndexCount = 2] and the
    array of exactly these two indices when they differ, and exclusive
    sharing with a zero count and no index array when they are equal; these
    are the values of the create-info handed to the create call. *)
Theorem createSwapChain_sharing_mode (g p : Z) :
  (g <> p ->
   createSwapChain_sharing (mkIndices (Some g) (Some p)) =
   Return (VK_SHARING_MODE_CONCURRENT, 2, Some [g; p])) /\
  (g = p ->
   createSwapChain_sharing (mkIndices (Some g) (Some p)) =
   Return (VK_SHARING_MODE_EXCLUSIVE, 0, None)) /\
  (forall app sf,
   chooseSwapSurfaceFormat (surfaceFormatsKHR (physicalDevice app))
     = Return sf ->
   findQueueFamilies (physicalDevice app) = mkIndices (Some g) (Some p) ->
   exists ci, createSwapChain_createInfo app = Return ci /\
     (g <> p ->
      VkSwapchainCreateInfoKHR.imageSharingMode ci
        = VK_SHARING_MODE_CONCURRENT /\
      VkSwapchainCreateInfoKHR.queueFamilyIndexCount ci = 2 /\
      VkSwapchainCreateInfoKHR.pQueueFamilyIndices ci = Some [g; p]) /\
     (g = p ->
      VkSwapchainCreateInfoKHR.imageSharingMode ci
        = VK_SHARING_MODE_EXCLUSIVE /\
      VkSwapchainCreateInfoKHR.queueFamilyIndexCount ci = 0 /\
      VkSwapchainCreateInfoKHR.pQueueFamilyIndices ci = None)).
Proof.
  split; [|split].
  - intros Hne. rewrite createSwapChain_sharing_Return.
    case_bool_decide; [contradiction | reflexivity].
  - intros Heq. rewrite createSwapChain_sharing_Return.
    case_bool_decide; [reflexivity | contradiction].
  - intros app sf Hsf Hidx. eexists. split.
    + apply (createSwapChain_createInfo_Return app sf g p Hsf Hidx).
    + simpl. split; intros H; case_bool_decide; try contradiction;
        repeat split; reflexivity.
Qed.

Lemma createSwapChain_sharing_mode_witness :
  createSwapChain_sharing (mkIndices (Some 0) (Some 2)) =
    Return (VK_SHARING_MODE_CONCURRENT, 2, Some [0; 2]) /\
  createSwapChain_sharing (mkIndices (Some 0) (Some 0)) =
    Return (VK_SHARING_MODE_EXCLUSIVE, 0, None) /\
  exists ci,
    createSwapChain_createInfo (application_on split_device VK_NULL_HANDLE)
      = Return ci /\
    VkSwapchainCreateInfoKHR.imageSharingMode ci = VK_SHARING_MODE_CONCURRENT /\
    VkSwapchainCreateInfoKHR.queueFamilyIndexCount ci = 2 /\
    VkSwapchainCreateInfoKHR.pQueueFamilyIndices ci = Some [1; 0].
Proof.
  split; [|split].
  - apply (proj1 (createSwapChain_sharing_mode 0 2)). lia.
  - apply (proj1 (proj2 (createSwapChain_sharing_mode 0 0))). reflexivity.
  - destruct (proj2 (proj2 (createSwapChain_sharing_mode 1 0))
               (application_on split_device VK_NULL_HANDLE) srgb_format
               eq_refl eq_refl) as (ci & Hci & Hdiff & _).
    exists ci. split; [exact Hci|]. apply Hdiff. lia.
Defined.

(** C9 (as the code has it): [createSwapChain] takes no previous chain.
    The structure handed to the create call always carries
    [VK_NULL_HANDLE] as [oldSwapChain], that is a first-time creation, and
    it does not depend on the chain the application holds in its
    [swapChain] member when the function is entered; with a selected format
    and both queue indices the create call is reached. *)
Theorem createSwapChain_oldSwapChain_null (app : HelloTriangleApplication) :
  (forall ci, createSwapChain_createInfo app = Return ci ->
   VkSwapchainCreateInfoKHR.oldSwapChain ci = VK_NULL_HANDLE) /\
  (forall previous,
   createSwapChain_createInfo (with_swapChain previous app)
   = createSwapChain_createInfo app) /\
  (forall sf g p,
   chooseSwapSurfaceFormat (surfaceFormatsKHR (physicalDevice app))
     = Return sf ->
   findQueueFamilies (physicalDevice app) = mkIndices (Some g) (Some p) ->
   exists ci, createSwapChain_createInfo app = Return ci /\
     VkSwapchainCreateInfoKHR.oldSwapChain ci = VK_NULL_HANDLE).
Proof.
  split; [|split].
  - intros ci. apply createSwapChain_createInfo_oldSwapChain.
  - intros previous. reflexivity.
  - intros sf g p Hsf Hidx. eexists. split.
    + apply (createSwapChain_createInfo_Return app sf g p Hsf Hidx).
    + reflexivity.
Qed.

Lemma createSwapChain_oldSwapChain_null_witness :
  exists ci,
    createSwapChain_createInfo (application_on split_device 7) = Return ci /\
    VkSwapchainCreateInfoKHR.oldSwapChain ci = VK_NULL_HANDLE.
Proof.
  exact (proj2 (proj2 (createSwapChain_oldSwapChain_null
           (application_on split_device 7)))
         srgb_format 1 0 eq_refl eq_refl).
Defined.

(** C9 as stated fails: the application holds chain [7] when
    [createSwapChain] is entered, and the create call does not receive it. *)
Lemma createSwapChain_previous_chain_not_passed :
  swapChain (application_on split_device 7) = 7 /\
  7 <> VK_NULL_HANDLE /\
  exists ci,
    createSwapChain_createInfo (application_on split_device 7) = Return ci /\
    VkSwapchainCreateInfoKHR.oldSwapChain ci
      <> swapChain (application_on split_device 7).
Proof.
  split; [reflexivity|]. split; [discriminate|].
  eexists. split; [vm_compute; reflexivity|].
  simpl. discriminate.
Qed.

(** ** Surface format *)

(** The first preferred entry is returned, wherever it stands. *)
Lemma chooseSwapSurfaceFormat_first_preferred
    (before after : list VkSurfaceFormatKHR) (f : VkSurfaceFormatKHR) :
  forallb (fun x => negb (preferred x)) before = true ->
  preferred f = true ->
  chooseSwapSurfaceFormat (before ++ f :: after) = Return f.
Proof.
  intros Hbefore Hf.
  induction before as [|x before IH]; simpl in *.
  - unfold preferred in Hf. rewrite Hf. reflexivity.
  - apply andb_prop in Hbefore as [Hx Hrest].
    unfold preferred in Hx. apply negb_true_iff in Hx. rewrite Hx.
    apply IH. exact Hrest.
Qed.

(** Without a preferred entry no [return] statement is reached. *)
Lemma chooseSwapSurfaceFormat_none_preferred
    (availableFormats : list VkSurfaceFormatKHR) :
  forallb (fun x => negb (preferred x)) availableFormats = true ->
  chooseSwapSurfaceFormat availableFormats = NoReturn.
Proof.
  induction availableFormats as [|x rest IH]; simpl; [reflexivity|].
  intros H. apply andb_prop in H as [Hx Hrest].
  unfold preferred in Hx. apply negb_true_iff in Hx. rewrite Hx.
  apply IH. exact Hrest.
Qed.

(** C2 (evaluation of the code): on the one-entry list holding the UNORM
    BGRA format, which is not the preferred pair, [chooseSwapSurfaceFormat]
    reaches the end of its body without returning the first entry, and so
    does [createSwapChain] on a device that offers only this format. *)
Theorem chooseSwapSurfaceFormat_no_fallback :
  chooseSwapSurfaceFormat [unorm_format] = NoReturn /\
  chooseSwapSurfaceFormat [unorm_format] <> Return unorm_format /\
  createSwapChain
    (application_on
       (mkPhysicalDevice [mkQueueFamily VK_QUEUE_GRAPHICS_BIT] (fun _ => true)
          fixed_caps [unorm_format] [VK_PRESENT_MODE_FIFO_KHR]
          [VK_KHR_SWAPCHAIN_EXTENSION_NAME])
       VK_NULL_HANDLE)
  = NoReturn.
Proof.
  split; [reflexivity|]. split; [discriminate | reflexivity].
Qed.

(** ** Device suitability *)

Lemma erase_all_difference (available : list string) (required : gset string) :
  foldl (fun required extensionName => required ∖ {[ extensionName ]})
    required available
  = required ∖ list_to_set available.
Proof.
  revert required.
  induction available as [|x available IH]; intros required; cbn [foldl].
  - rewrite list_to_set_nil, difference_empty_L. reflexivity.
  - rewrite IH, list_to_set_cons, difference_difference_l_L. reflexivity.
Qed.

(** The required extension set empties exactly when the swap chain
    extension is among the available ones. *)
Lemma checkDeviceExtensionSupport_spec (d : VkPhysicalDevice) :
  checkDeviceExtensionSupport d = true <->
  VK_KHR_SWAPCHAIN_EXTENSION_NAME ∈ deviceExtensionProperties d.
Proof.
  unfold checkDeviceExtensionSupport, deviceExtensions.
  rewrite erase_all_difference, bool_decide_eq_true.
  rewrite list_to_set_cons, list_to_set_nil, union_empty_r_L.
  split.
  - intros Hempty.
    destruct (decide (VK_KHR_SWAPCHAIN_EXTENSION_NAME
                        ∈ deviceExtensionProperties d)) as [Hin|Hnin];
      [exact Hin|].
    exfalso.
    apply (not_elem_of_empty (C:=gset string) VK_KHR_SWAPCHAIN_EXTENSION_NAME).
    rewrite <- Hempty. apply elem_of_difference.
    split; [apply elem_of_singleton; reflexivity|].
    rewrite elem_of_list_to_set. exact Hnin.
  - intros Hin. apply set_eq. intros x.
    rewrite elem_of_difference, elem_of_singleton, elem_of_list_to_set.
    split.
    + intros [-> Hnin]. contradiction.
    + intros Hx. apply not_elem_of_empty in Hx. contradiction.
Qed.

(** What [isDeviceSuitable] computes, with [isComplete] as the code has
    it: the conjunction of the code's [isComplete], extension support and
    the two non-emptiness tests.  With an empty format list or an empty
    mode list the answer is [false], an ordinary return value:
    [pickPhysicalDevice] goes on to the next candidate and selects it when
    it is suitable. *)
Lemma isDeviceSuitable_conjunction (d : VkPhysicalDevice) :
  (isDeviceSuitable d = true <->
   surfaceFormatsKHR d <> [] /\
   surfacePresentModesKHR d <> [] /\
   isComplete (findQueueFamilies d) = true /\
   VK_KHR_SWAPCHAIN_EXTENSION_NAME ∈ deviceExtensionProperties d) /\
  (surfaceFormatsKHR d = [] \/ surfacePresentModesKHR d = [] ->
   isDeviceSuitable d = false /\
   forall next rest, isDeviceSuitable next = true ->
     pickPhysicalDevice (d :: next :: rest) = Return next).
Proof.
  assert (Hiff : isDeviceSuitable d = true <->
   surfaceFormatsKHR d <> [] /\
   surfacePresentModesKHR d <> [] /\
   isComplete (findQueueFamilies d) = true /\
   VK_KHR_SWAPCHAIN_EXTENSION_NAME ∈ deviceExtensionProperties d).
  { rewrite <- checkDeviceExtensionSupport_spec.
    unfold isDeviceSuitable.
    rewrite querySwapChainSupport_fields; simpl.
    destruct (isComplete (findQueueFamilies d));
      destruct (checkDeviceExtensionSupport d);
      destruct (surfaceFormatsKHR d);
      destruct (surfacePresentModesKHR d); simpl;
      split; try discriminate; try tauto; intuition congruence. }
  split; [exact Hiff|].
  intros Hempty.
  assert (Hfalse : isDeviceSuitable d = false).
  { apply not_true_is_false. intros E.
    apply Hiff in E. destruct E as (Hf & Hm & _).
    destruct Hempty; contradiction. }
  split; [exact Hfalse|].
  intros next rest Hnext.
  unfold pickPhysicalDevice; simpl. rewrite Hfalse, Hnext. reflexivity.
Qed.

(** C8 (evaluation of the code): [graphics_only_device] has non-empty
    format and mode lists, the swap chain extension and a graphics family,
    but no family that can present, so its resolved indices lack the
    present index; [isDeviceSuitable] accepts it all the same, because the
    [isComplete] it calls tests the graphics index only. *)
Theorem isDeviceSuitable_without_presentFamily :
  isDeviceSuitable graphics_only_device = true /\
  findQueueFamilies graphics_only_device = mkIndices (Some 0) None /\
  has_value (graphicsFamily (findQueueFamilies graphics_only_device))
    && has_value (presentFamily (findQueueFamilies graphics_only_device))
  = false /\
  surfaceFormatsKHR graphics_only_device <> [] /\
  surfacePresentModesKHR graphics_only_device <> [] /\
  checkDeviceExtensionSupport graphics_only_device = true.
Proof.
  split; [vm_compute; reflexivity|].
  split; [vm_compute; reflexivity|].
  split; [vm_compute; reflexivity|].
  split; [discriminate|]. split; [discriminate|].
  vm_compute. reflexivity.
Qed.

(** ** Queue family resolution *)

Lemma first_graphics_cons (q : VkQueueFamilyProperties)
    (rest : list VkQueueFamilyProperties) (i0 : Z) :
  Z.add i0 <$> first_graphics (q :: rest) =
  if graphics_bit_set q then Some i0
  else Z.add (i0 + 1) <$> first_graphics rest.
Proof.
  unfold first_graphics. cbn [list_find].
  destruct (graphics_bit_set q) eqn:G.
  - rewrite decide_True by exact G. cbn. f_equal. lia.
  - rewrite decide_False by (unfold graphics_capable; congruence).
    destruct (list_find graphics_capable rest) as [[k x]|]; cbn;
      [f_equal; lia | reflexivity].
Qed.

(** [first_graphics] is the least index whose family has the graphics bit. *)
Lemma first_graphics_Some (fams : list VkQueueFamilyProperties) (g : Z) :
  first_graphics fams = Some g <->
  exists (k : nat) (q : VkQueueFamilyProperties),
    g = Z.of_nat k /\ fams !! k = Some q /\ graphics_bit_set q = true /\
    forall (j : nat) (y : VkQueueFamilyProperties),
      fams !! j = Some y -> (j < k)%nat -> graphics_bit_set y = false.
Proof.
  unfold first_graphics. split.
  - destruct (list_find graphics_capable fams) as [[k q]|] eqn:E;
      [|discriminate].
    cbn. intros [= <-].
    apply list_find_Some in E as (Hk & Hq & Hbefore).
    exists k, q. repeat split; auto.
    intros j y Hj Hlt. specialize (Hbefore j y Hj Hlt).
    unfold graphics_capable in Hbefore.
    destruct (graphics_bit_set y); congruence.
  - intros (k & q & -> & Hk & Hq & Hbefore).
    assert (E : list_find graphics_capable fams = Some (k, q)).
    { apply list_find_Some. repeat split; auto.
      intros j y Hj Hlt. unfold graphics_capable.
      rewrite (Hbefore j y Hj Hlt). discriminate. }
    rewrite E. reflexivity.
Qed.

Lemma first_graphics_None (fams : list VkQueueFamilyProperties) :
  first_graphics fams = None <->
  Forall (fun q => graphics_bit_set q = false) fams.
Proof.
  unfold first_graphics.
  destruct (list_find graphics_capable fams) as [[k q]|] eqn:E; cbn.
  - split; [discriminate|]. intros Hall.
    apply list_find_Some in E as (Hk & Hq & _).
    rewrite Forall_lookup in Hall. specialize (Hall k q Hk). cbn in Hall.
    unfold graphics_capable in Hq. congruence.
  - split; [|reflexivity]. intros _.
    apply list_find_None in E.
    eapply Forall_impl; [exact E|]. cbn. intros q Hq.
    unfold graphics_capable in Hq. destruct (graphics_bit_set q); congruence.
Qed.
Lemma findQueueFamilies_loop_spec (d : VkPhysicalDevice) :
  forall (fams : list VkQueueFamilyProperties) (p0 : option Z) (i0 : Z),
  0 <= i0 -> i0 + Z.of_nat (length fams) <= UINT32_MAX ->
  scan_post d p0 i0 (i0 + Z.of_nat (length fams))
    (Z.add i0 <$> first_graphics fams)
    (findQueueFamilies_loop d fams (mkIndices None p0) i0).
Proof.
  induction fams as [|q rest IH]; intros p0 i0 Hi0 Hlen.
  - unfold scan_post, no_support. cbn. rewrite Z.add_0_r.
    split; [lia|]. split; [reflexivity|]. split; [discriminate|].
    split; [reflexivity|]. split.
    + intros p ->. left. split; [reflexivity | intros j Hj Hjn; lia].
    + intros ->. split; [reflexivity | intros j Hj Hjn; lia].
  - rewrite first_graphics_cons.
    cbn [length] in *. rewrite Nat2Z.inj_succ in *.
    cbn [findQueueFamilies_loop].
    rewrite (u32_small i0) by lia.
    destruct (graphics_bit_set q) eqn:G.
    + unfold scan_post, no_support.
      destruct (surfaceSupportKHR d i0) eqn:S; cbn.
      * split; [lia|]. split; [reflexivity|].
        split; [intros g [= <-]; lia|]. split; [discriminate|].
        split; [|discriminate].
        intros p [= <-]. right.
        split; [lia|]. split; [lia|]. split; [exact S|].
        intros j Hj Hjn; lia.
      * assert (Hno : forall j, i0 <= j <= i0 ->
          j < i0 + Z.succ (Z.of_nat (length rest)) ->
          surfaceSupportKHR d j = false).
        { intros j Hj _. replace j with i0 by lia. exact S. }
        split; [lia|]. split; [reflexivity|].
        split; [intros g [= <-]; lia|]. split; [discriminate|].
        split.
        -- intros p ->. left. split; [reflexivity | exact Hno].
        -- intros ->. split; [reflexivity | exact Hno].
    + replace (i0 + Z.succ (Z.of_nat (length rest)))
        with (i0 + 1 + Z.of_nat (length rest)) in * by lia.
      destruct (surfaceSupportKHR d i0) eqn:S;
        cbn [isComplete has_value graphicsFamily presentFamily].
      * destruct (IH (Some i0) (i0 + 1)) as (Hr & Hg & Hgs & Hgn & Hps & Hpn);
          [lia | lia |].
        unfold scan_post.
        split; [lia|]. split; [exact Hg|]. split; [exact Hgs|].
        split; [exact Hgn|]. split.
        -- intros p Hp. right.
           destruct (Hps p Hp) as [[Hp0 Hno]|(Hr1 & Hr2 & Hr3 & Hr4)].
           ++ injection Hp0 as <-.
              split; [lia|]. split; [lia|]. split; [exact S | exact Hno].
           ++ split; [lia|]. split; [lia|]. split; [exact Hr3 | exact Hr4].
        -- intros Hp. destruct (Hpn Hp) as [Hp0 _]. discriminate.
      * destruct (IH p0 (i0 + 1)) as (Hr & Hg & Hgs & Hgn & Hps & Hpn);
          [lia | lia |].
        assert (Hext : forall stop n, no_support d (i0 + 1) stop n ->
                       no_support d i0 stop n).
        { intros stop n Hno j Hj Hjn. destruct (Z.eq_dec j i0) as [->|Hne];
            [exact S | apply Hno; lia]. }
        unfold scan_post.
        split; [lia|]. split; [exact Hg|]. split; [exact Hgs|].
        split; [exact Hgn|]. split.
        -- intros p Hp.
           destruct (Hps p Hp) as [[Hp0 Hno]|(Hr1 & Hr2 & Hr3 & Hr4)].
           ++ left. split; [exact Hp0 | apply Hext; exact Hno].
           ++ right. split; [lia|]. split; [lia|].
              split; [exact Hr3 | exact Hr4].
        -- intros Hp. destruct (Hpn Hp) as [Hp0 Hno].
           split; [exact Hp0 | apply Hext; exact Hno].
Qed.

(** C1 (as the code has it): for a device with fewer than [2^31] queue
    families, [findQueueFamilies] reports as graphics index the index of
    the first family advertising graphics; the present index is the last
    scanned family that can present to the surface, each scanned family
    that can present overwriting the index, so it is not the first one in
    general; the scan stops before the last family only with the graphics
    index set, and with both indices set it stopped at the greater of the
    two; when family 1 is the first with graphics and can present, the
    result is graphics 1, present 1 and the scan stops at index 1, whatever
    families follow. *)
Theorem findQueueFamilies_candidates (d : VkPhysicalDevice) :
  Z.of_nat (length (queueFamilyProperties d)) < 2147483648 ->
  let n := Z.of_nat (length (queueFamilyProperties d)) in
  let indices := findQueueFamilies d in
  let stop := snd (findQueueFamilies_scan d) in
  graphicsFamily indices = first_graphics (queueFamilyProperties d) /\
  (forall p, presentFamily indices = Some p ->
     0 <= p <= stop /\ p < n /\ surfaceSupportKHR d p = true /\
     forall j, p < j <= stop -> j < n -> surfaceSupportKHR d j = false) /\
  (presentFamily indices = None ->
     forall j, 0 <= j <= stop -> j < n -> surfaceSupportKHR d j = false) /\
  (stop < n -> graphicsFamily indices <> None) /\
  (forall g p, graphicsFamily indices = Some g ->
     presentFamily indices = Some p -> stop = Z.max g p) /\
  (forall q0 q1 rest,
     queueFamilyProperties d = q0 :: q1 :: rest ->
     graphics_bit_set q0 = false ->
     graphics_bit_set q1 = true ->
     surfaceSupportKHR d 1 = true ->
     findQueueFamilies_scan d = (mkIndices (Some 1) (Some 1), 1)).
Proof.
  intros Hn n indices stop. fold n in Hn.
  destruct (findQueueFamilies_loop_spec d (queueFamilyProperties d) None 0)
    as (Hr & Hg & Hgs & Hgn & Hps & Hpn);
    [lia | unfold UINT32_MAX; fold n; lia |].
  fold (findQueueFamilies_scan d) in Hr, Hg, Hgs, Hgn, Hps, Hpn.
  fold (findQueueFamilies d) in Hg, Hgs, Hgn, Hps, Hpn.
  fold indices in Hg, Hgs, Hgn, Hps, Hpn. fold stop in Hr, Hgs, Hgn, Hps, Hpn.
  rewrite Z.add_0_l in *. fold n in Hr, Hgs, Hgn, Hps, Hpn.
  assert (Hfirst : graphicsFamily indices
                   = first_graphics (queueFamilyProperties d)).
  { rewrite Hg.
    destruct (first_graphics (queueFamilyProperties d)); reflexivity. }
  split; [exact Hfirst|].
  split.
  { intros p Hp.
    destruct (Hps p Hp) as [[Hp0 _]|(Hr1 & Hr2 & Hr3 & Hr4)];
      [discriminate|].
    split; [lia|]. split; [lia|]. split; [exact Hr3|].
    intros j Hj Hjn. apply Hr4; lia. }
  split.
  { intros Hp j Hj Hjn. destruct (Hpn Hp) as [_ Hno]. apply Hno; lia. }
  split.
  { intros Hstop Hnone. specialize (Hgn Hnone). lia. }
  split.
  { intros g p Hgg Hp. destruct (Hgs g Hgg) as [Hstop _].
    destruct (Hps p Hp) as [[Hp0 _]|(Hr1 & _)]; [discriminate | lia]. }
  intros q0 q1 rest Hfams G0 G1 S1.
  unfold findQueueFamilies_scan. rewrite Hfams.
  cbn [findQueueFamilies_loop]. rewrite G0, G1.
  change (u32 0) with 0. change (u32 (0 + 1)) with 1. rewrite S1.
  destruct (surfaceSupportKHR d 0); reflexivity.
Qed.

Lemma findQueueFamilies_candidates_witness :
  findQueueFamilies combined_device = mkIndices (Some 1) (Some 1) /\
  snd (findQueueFamilies_scan combined_device) = 1.
Proof.
  destruct (findQueueFamilies_candidates combined_device)
    as (_ & _ & _ & _ & _ & Hexample); [simpl; lia|].
  unfold findQueueFamilies.
  rewrite (Hexample (mkQueueFamily 0) (mkQueueFamily VK_QUEUE_GRAPHICS_BIT)
             [mkQueueFamily 0] eq_refl eq_refl eq_refl eq_refl).
  split; reflexivity.
Defined.

(** C1 as stated fails in two places.  On [overwrite_device] family 0 is
    the first that can present, yet the present index is 1.  On
    [graphics_first_device] the scan stops at index 0 with no present index,
    although family 1 can present. *)
Lemma findQueueFamilies_not_first_present :
  (surfaceSupportKHR overwrite_device 0 = true /\
   findQueueFamilies overwrite_device = mkIndices (Some 1) (Some 1) /\
   presentFamily (findQueueFamilies overwrite_device) <> Some 0) /\
  (findQueueFamilies_scan graphics_first_device
     = (mkIndices (Some 0) None, 0) /\
   surfaceSupportKHR graphics_first_device 1 = true).
Proof.
  split; [split; [reflexivity|split; [reflexivity|discriminate]]|].
  split; reflexivity.
Qed.

(** * Further properties *)

Lemma findQueueFamilies_loop_isComplete (d : VkPhysicalDevice) :
  forall (fams : list VkQueueFamilyProperties) (p : option Z) (i : Z),
  isComplete (fst (findQueueFamilies_loop d fams (mkIndices None p) i))
  = existsb graphics_bit_set fams.
Proof.
  induction fams as [|q rest IH]; intros p i; [reflexivity|].
  cbn [findQueueFamilies_loop existsb].
  destruct (graphics_bit_set q); destruct (surfaceSupportKHR d (u32 i));
    cbn; try reflexivity; apply IH.
Qed.

(** X1: the indices [findQueueFamilies] returns satisfy [isComplete]
    exactly when some queue family of the device has the graphics bit;
    what the families can present plays no part. *)
Theorem findQueueFamilies_complete_iff_graphics (d : VkPhysicalDevice) :
  isComplete (findQueueFamilies d) = true <->
  exists q, q ∈ queueFamilyProperties d /\ graphics_bit_set q = true.
Proof.
  unfold findQueueFamilies, findQueueFamilies_scan.
  rewrite findQueueFamilies_loop_isComplete, existsb_exists.
  split; intros (q & Hq & Hbit); exists q; split; auto;
    apply list_elem_of_In; exact Hq.
Qed.

(** X2: for a device with fewer than [2^31] queue families, each index
    [findQueueFamilies] returns is the index of one of the device's
    families, and when both are set the present index is not greater than
    the graphics index. *)
Theorem findQueueFamilies_indices_in_range (d : VkPhysicalDevice) :
  Z.of_nat (length (queueFamilyProperties d)) < 2147483648 ->
  let n := Z.of_nat (length (queueFamilyProperties d)) in
  let indices := findQueueFamilies d in
  (forall g, graphicsFamily indices = Some g -> 0 <= g < n) /\
  (forall p, presentFamily indices = Some p -> 0 <= p < n) /\
  (forall g p, graphicsFamily indices = Some g ->
     presentFamily indices = Some p -> p <= g).
Proof.
  intros Hn n indices. fold n in Hn.
  destruct (findQueueFamilies_loop_spec d (queueFamilyProperties d) None 0)
    as (Hr & _ & Hgs & _ & Hps & _);
    [lia | unfold UINT32_MAX; fold n; lia |].
  fold (findQueueFamilies_scan d) in Hr, Hgs, Hps.
  fold (findQueueFamilies d) in Hgs, Hps. fold indices in Hgs, Hps.
  rewrite Z.add_0_l in *. fold n in Hr, Hgs, Hps.
  split; [|split].
  - intros g Hg. destruct (Hgs g Hg) as [Hstop Hlt]. lia.
  - intros p Hp.
    destruct (Hps p Hp) as [[Hp0 _]|(Hr1 & Hr2 & _)]; [discriminate | lia].
  - intros g p Hg Hp. destruct (Hgs g Hg) as [Hstop _].
    destruct (Hps p Hp) as [[Hp0 _]|(Hr1 & _)]; [discriminate | lia].
Qed.

Lemma findQueueFamilies_indices_in_range_witness :
  findQueueFamilies split_device = mkIndices (Some 1) (Some 0) /\
  0 <= 1 < 2 /\ 0 <= 0 < 2 /\ 0 <= 1.
Proof.
  split; [reflexivity|].
  destruct (findQueueFamilies_indices_in_range split_device)
    as (Hg & Hp & Hle); [simpl; lia|].
  split; [exact (Hg 1 eq_refl)|].
  split; [exact (Hp 0 eq_refl) | exact (Hle 1 0 eq_refl eq_refl)].
Defined.

(** The loop reads of the device only its answers on surface support. *)
Lemma findQueueFamilies_loop_support (d d' : VkPhysicalDevice) :
  (forall i, surfaceSupportKHR d i = surfaceSupportKHR d' i) ->
  forall fams indices i,
  findQueueFamilies_loop d fams indices i
  = findQueueFamilies_loop d' fams indices i.
Proof.
  intros Hsup. induction fams as [|q rest IH]; intros indices i;
    [reflexivity|].
  cbn [findQueueFamilies_loop]. rewrite Hsup, IH. reflexivity.
Qed.

Lemma findQueueFamilies_loop_stops (d : VkPhysicalDevice)
    (q : VkQueueFamilyProperties) (post : list VkQueueFamilyProperties) :
  graphics_bit_set q = true ->
  forall (pre : list VkQueueFamilyProperties) indices i,
  Forall (fun x => graphics_bit_set x = false) pre ->
  isComplete indices = false ->
  findQueueFamilies_loop d (pre ++ q :: post) indices i
  = findQueueFamilies_loop d (pre ++ [q]) indices i.
Proof.
  intros Hq. induction pre as [|x pre IH]; intros indices i Hpre Hinc.
  - cbn [app findQueueFamilies_loop]. rewrite Hq.
    destruct (surfaceSupportKHR d (u32 i)); reflexivity.
  - apply Forall_cons in Hpre as [Hx Hpre].
    cbn [app findQueueFamilies_loop]. rewrite Hx.
    destruct (surfaceSupportKHR d (u32 i)).
    + replace (isComplete (mkIndices (graphicsFamily indices) (Some (u32 i))))
        with false by (symmetry; exact Hinc).
      apply IH; [exact Hpre | exact Hinc].
    + rewrite Hinc. apply IH; [exact Hpre | exact Hinc].
Qed.

(** X3: the scan of [findQueueFamilies] does not look past the first
    family with the graphics bit: two devices that agree on the families up
    to and including it, and on surface support, give the same indices and
    the same stopping index, whatever families follow. *)
Theorem findQueueFamilies_ignores_later_families (d : VkPhysicalDevice)
    (pre post post' : list VkQueueFamilyProperties)
    (q : VkQueueFamilyProperties) :
  Forall (fun x => graphics_bit_set x = false) pre ->
  graphics_bit_set q = true ->
  findQueueFamilies_scan (with_queueFamilies (pre ++ q :: post) d)
  = findQueueFamilies_scan (with_queueFamilies (pre ++ q :: post') d).
Proof.
  intros Hpre Hq. unfold findQueueFamilies_scan. cbn [queueFamilyProperties with_queueFamilies].
  rewrite (findQueueFamilies_loop_support _ d) by reflexivity.
  rewrite (findQueueFamilies_loop_support
             (with_queueFamilies (pre ++ q :: post') d) d) by reflexivity.
  rewrite (findQueueFamilies_loop_stops d q post Hq pre) by auto.
  rewrite (findQueueFamilies_loop_stops d q post' Hq pre) by auto.
  reflexivity.
Qed.

Lemma findQueueFamilies_ignores_later_families_witness :
  findQueueFamilies_scan
    (with_queueFamilies
       ([mkQueueFamily 0] ++ mkQueueFamily VK_QUEUE_GRAPHICS_BIT
          :: [mkQueueFamily 0]) combined_device)
  = findQueueFamilies_scan
      (with_queueFamilies
         ([mkQueueFamily 0] ++ mkQueueFamily VK_QUEUE_GRAPHICS_BIT
            :: [mkQueueFamily VK_QUEUE_GRAPHICS_BIT; mkQueueFamily 0])
         combined_device).
Proof.
  apply findQueueFamilies_ignores_later_families.
  - repeat constructor.
  - reflexivity.
Defined.

Lemma isComplete_findQueueFamilies (d : VkPhysicalDevice) :
  isComplete (findQueueFamilies d)
  = existsb graphics_bit_set (queueFamilyProperties d).
Proof.
  unfold findQueueFamilies, findQueueFamilies_scan.
  apply findQueueFamilies_loop_isComplete.
Qed.

(** X4: [isDeviceSuitable] answers [true] exactly when some queue
    family has the graphics bit, the swap chain extension is available and
    the format and presentation mode lists are non-empty; its answer does
    not change when the device's surface support is replaced by any
    other. *)
Theorem isDeviceSuitable_by_device_data (d : VkPhysicalDevice) :
  (isDeviceSuitable d = true <->
   (exists q, q ∈ queueFamilyProperties d /\ graphics_bit_set q = true) /\
   VK_KHR_SWAPCHAIN_EXTENSION_NAME ∈ deviceExtensionProperties d /\
   surfaceFormatsKHR d <> [] /\
   surfacePresentModesKHR d <> []) /\
  (forall support,
   isDeviceSuitable (with_surfaceSupport support d) = isDeviceSuitable d).
Proof.
  split.
  - rewrite <- checkDeviceExtensionSupport_spec.
    assert (Hex : (exists q, q ∈ queueFamilyProperties d /\
                     graphics_bit_set q = true) <->
                  existsb graphics_bit_set (queueFamilyProperties d) = true).
    { rewrite existsb_exists.
      split; intros (q & Hq & Hbit); exists q; split; auto;
        apply list_elem_of_In; exact Hq. }
    rewrite Hex. unfold isDeviceSuitable.
    rewrite isComplete_findQueueFamilies, querySwapChainSupport_fields; simpl.
    destruct (existsb graphics_bit_set (queueFamilyProperties d));
      destruct (checkDeviceExtensionSupport d);
      destruct (surfaceFormatsKHR d);
      destruct (surfacePresentModesKHR d); simpl;
      split; try discriminate; try tauto; intuition congruence.
  - intros support. unfold isDeviceSuitable.
    rewrite !isComplete_findQueueFamilies. reflexivity.
Qed.

(** X5: [checkDeviceExtensionSupport] answers [true] exactly when
    [VK_KHR_swapchain] is among the available extension names, so its
    answer depends only on which names occur, not on their order or
    multiplicity. *)
Theorem checkDeviceExtensionSupport_membership (d : VkPhysicalDevice) :
  (checkDeviceExtensionSupport d = true <->
   VK_KHR_SWAPCHAIN_EXTENSION_NAME ∈ deviceExtensionProperties d) /\
  (forall d',
   (forall name, name ∈ deviceExtensionProperties d <->
                 name ∈ deviceExtensionProperties d') ->
   checkDeviceExtensionSupport d' = checkDeviceExtensionSupport d).
Proof.
  split; [apply checkDeviceExtensionSupport_spec|].
  intros d' Hsame.
  destruct (checkDeviceExtensionSupport d) eqn:E.
  - apply checkDeviceExtensionSupport_spec.
    apply Hsame. apply checkDeviceExtensionSupport_spec. exact E.
  - apply not_true_is_false. intros E'.
    apply checkDeviceExtensionSupport_spec in E'. apply Hsame in E'.
    apply checkDeviceExtensionSupport_spec in E'. congruence.
Qed.

(** ** pickPhysicalDevice *)

Lemma pickPhysicalDevice_loop_Some (devices : list VkPhysicalDevice)
    (dev : VkPhysicalDevice) :
  pickPhysicalDevice_loop devices = Some dev <->
  exists before after,
    devices = (before ++ dev :: after)%list /\
    Forall (fun x => isDeviceSuitable x = false) before /\
    isDeviceSuitable dev = true.
Proof.
  induction devices as [|x rest IH]; cbn [pickPhysicalDevice_loop].
  - split; [discriminate|].
    intros (before & after & Heq & _). destruct before; discriminate.
  - destruct (isDeviceSuitable x) eqn:Hx.
    + split.
      * intros [= <-]. exists [], rest. repeat split; auto.
      * intros (before & after & Heq & Hbefore & Hdev).
        destruct before as [|b before]; cbn in Heq.
        -- injection Heq as <- _. reflexivity.
        -- injection Heq as <- _.
           apply Forall_cons in Hbefore as [Hb _]. congruence.
    + rewrite IH. split.
      * intros (before & after & -> & Hbefore & Hdev).
        exists (x :: before), after. repeat split; auto.
      * intros (before & after & Heq & Hbefore & Hdev).
        destruct before as [|b before]; cbn in Heq.
        -- injection Heq as -> _. congruence.
        -- injection Heq as <- ->.
           apply Forall_cons in Hbefore as [_ Hbefore].
           exists before, after. repeat split; auto.
Qed.

Lemma pickPhysicalDevice_loop_None (devices : list VkPhysicalDevice) :
  pickPhysicalDevice_loop devices = None <->
  Forall (fun x => isDeviceSuitable x = false) devices.
Proof.
  induction devices as [|x rest IH]; cbn [pickPhysicalDevice_loop].
  - split; [constructor | reflexivity].
  - destruct (isDeviceSuitable x) eqn:Hx.
    + split; [discriminate|].
      intros H. apply Forall_cons in H as [Hf _]. congruence.
    + rewrite IH. split.
      * intros H. constructor; assumption.
      * intros H. apply Forall_cons in H as [_ H]. exact H.
Qed.

(** X6: [pickPhysicalDevice] returns a device exactly when that device
    is the first one of the enumeration that [isDeviceSuitable] accepts. *)
Theorem pickPhysicalDevice_first_suitable (devices : list VkPhysicalDevice)
    (dev : VkPhysicalDevice) :
  pickPhysicalDevice devices = Return dev <->
  exists before after,
    devices = (before ++ dev :: after)%list /\
    Forall (fun x => isDeviceSuitable x = false) before /\
    isDeviceSuitable dev = true.
Proof.
  rewrite <- pickPhysicalDevice_loop_Some.
  unfold pickPhysicalDevice.
  destruct devices as [|x rest]; cbn [length Nat.eqb].
  - cbn. split; discriminate.
  - destruct (pickPhysicalDevice_loop (x :: rest)) as [found|].
    + split; intros [= ->]; reflexivity.
    + split; discriminate.
Qed.

(** X7: [pickPhysicalDevice] throws "failed to find GPUs with Vulkan
    support!" exactly on an empty enumeration and "failed to find a
    suitable GPU!" exactly on a non-empty enumeration without a suitable
    device; it has no other failure. *)
Theorem pickPhysicalDevice_errors (devices : list VkPhysicalDevice) :
  (pickPhysicalDevice devices
     = Throw (runtime_error "failed to find GPUs with Vulkan support!")
   <-> devices = []) /\
  (pickPhysicalDevice devices
     = Throw (runtime_error "failed to find a suitable GPU!")
   <-> devices <> [] /\
       Forall (fun x => isDeviceSuitable x = false) devices) /\
  pickPhysicalDevice devices <> NoReturn /\
  pickPhysicalDevice devices <> Throw bad_optional_access.
Proof.
  unfold pickPhysicalDevice.
  destruct devices as [|x rest]; cbn [length Nat.eqb].
  - split; [split; auto|]. split; [|split; discriminate].
    split; [discriminate | intros [H _]; congruence].
  - rewrite <- pickPhysicalDevice_loop_None.
    destruct (pickPhysicalDevice_loop (x :: rest)) as [found|].
    + split; [split; discriminate|].
      split; [|split; discriminate].
      split; [discriminate | intros [_ H]; discriminate].
    + split; [split; discriminate|].
      split; [|split; discriminate].
      split; [intros _; split; [discriminate | reflexivity] | reflexivity].
Qed.

(** ** chooseSwapExtent *)

Lemma u32_negative (z : Z) :
  -2147483648 <= z < 0 -> u32 z = z + 4294967296.
Proof.
  intros Hz. unfold u32.
  rewrite <- (Z_mod_plus_full z 1 4294967296).
  apply Z.mod_small. lia.
Qed.

(** X8: in the sentinel branch, a non-negative framebuffer size that lies
    within the extent bounds is returned unchanged by [chooseSwapExtent]. *)
Theorem chooseSwapExtent_fitting_size_unchanged (window : GLFWwindow)
    (caps : VkSurfaceCapabilitiesKHR) :
  width (currentExtent caps) = UINT32_MAX ->
  0 <= framebufferWidth window < 2147483648 ->
  0 <= framebufferHeight window < 2147483648 ->
  width (minImageExtent caps) <= framebufferWidth window
    <= width (maxImageExtent caps) ->
  height (minImageExtent caps) <= framebufferHeight window
    <= height (maxImageExtent caps) ->
  chooseSwapExtent window caps =
  mkExtent (framebufferWidth window) (framebufferHeight window).
Proof.
  intros Hs Hw Hh Hwb Hhb. unfold chooseSwapExtent. rewrite Hs; simpl.
  rewrite !u32_small by (unfold UINT32_MAX; lia).
  rewrite !std_clamp_inside by lia. f_equal; lia.
Qed.

Lemma chooseSwapExtent_fitting_size_unchanged_witness :
  chooseSwapExtent (mkWindow 1280 720) free_caps = mkExtent 1280 720.
Proof.
  apply (chooseSwapExtent_fitting_size_unchanged (mkWindow 1280 720) free_caps);
    simpl; try reflexivity; lia.
Defined.

(** X9: in the sentinel branch, a negative [int] framebuffer component is
    converted to [uint32_t] before clamping, so it comes out as the maximum
    extent of that component (for bounds with [min <= max < 2^31]), not as
    the minimum. *)
Theorem chooseSwapExtent_negative_size (window : GLFWwindow)
    (caps : VkSurfaceCapabilitiesKHR) :
  width (currentExtent caps) = UINT32_MAX ->
  (-2147483648 <= framebufferWidth window < 0 ->
   width (minImageExtent caps) <= width (maxImageExtent caps) < 2147483648 ->
   width (chooseSwapExtent window caps) = width (maxImageExtent caps)) /\
  (-2147483648 <= framebufferHeight window < 0 ->
   height (minImageExtent caps) <= height (maxImageExtent caps) < 2147483648 ->
   height (chooseSwapExtent window caps) = height (maxImageExtent caps)).
Proof.
  intros Hs. unfold chooseSwapExtent. rewrite Hs; simpl.
  split; intros Hneg Hb; rewrite u32_negative by exact Hneg;
    rewrite std_clamp_inside by lia; lia.
Qed.

Lemma chooseSwapExtent_negative_size_witness :
  width (chooseSwapExtent (mkWindow (-1) (-600)) free_caps) = 1920 /\
  height (chooseSwapExtent (mkWindow (-1) (-600)) free_caps) = 1080.
Proof.
  destruct (chooseSwapExtent_negative_size (mkWindow (-1) (-600)) free_caps
              eq_refl) as [Hw Hh].
  split; [apply Hw | apply Hh]; simpl; lia.
Defined.

(** ** Image count *)

(** X10: for a minimum below the [uint32_t] maximum and a maximum that
    is zero or not below the minimum, the requested image count is never
    below [minImageCount], never above a nonzero [maxImageCount], and it is
    [minImageCount + 1] exactly when the maximum is zero or greater than
    the minimum. *)
Theorem imageCount_of_bounds (caps : VkSurfaceCapabilitiesKHR) :
  0 <= minImageCount caps < UINT32_MAX ->
  0 <= maxImageCount caps ->
  maxImageCount caps = 0 \/ minImageCount caps <= maxImageCount caps ->
  minImageCount caps <= imageCount_of caps <= minImageCount caps + 1 /\
  (maxImageCount caps <> 0 -> imageCount_of caps <= maxImageCount caps) /\
  (imageCount_of caps = minImageCount caps + 1 <->
   maxImageCount caps = 0 \/ minImageCount caps < maxImageCount caps).
Proof.
  intros Hmin Hmax Hwf. unfold imageCount_of.
  rewrite u32_small by lia.
  destruct (Z.gtb_spec (maxImageCount caps) 0);
    destruct (Z.gtb_spec (minImageCount caps + 1) (maxImageCount caps));
    cbn [andb]; lia.
Qed.

Lemma imageCount_of_bounds_witness :
  3 <= imageCount_of free_caps <= 3 + 1 /\ imageCount_of free_caps <= 3.
Proof.
  destruct (imageCount_of_bounds free_caps) as (Hb & Hm & _);
    [simpl; unfold UINT32_MAX; lia | simpl; lia | right; simpl; lia |].
  split; [exact Hb | apply Hm; simpl; lia].
Defined.

(** X11: when [minImageCount] is the [uint32_t] maximum, the sum
    [minImageCount + 1] wraps to zero and zero images are requested,
    whatever [maxImageCount] is. *)
Theorem imageCount_of_wraps (caps : VkSurfaceCapabilitiesKHR) :
  minImageCount caps = UINT32_MAX ->
  0 <= maxImageCount caps ->
  imageCount_of caps = 0.
Proof.
  intros Hmin Hmax. unfold imageCount_of. rewrite Hmin.
  change (u32 (UINT32_MAX + 1)) with 0.
  destruct (Z.gtb_spec 0 (maxImageCount caps)); [lia|].
  rewrite andb_false_r. reflexivity.
Qed.

Lemma imageCount_of_wraps_witness :
  imageCount_of
    (mkCapabilities UINT32_MAX 8 (mkExtent 800 600) (mkExtent 1 1)
       (mkExtent 4096 4096) 1) = 0 /\
  imageCount_of
    (mkCapabilities UINT32_MAX 0 (mkExtent 800 600) (mkExtent 1 1)
       (mkExtent 4096 4096) 1) = 0.
Proof.
  split; apply imageCount_of_wraps; simpl; try reflexivity; lia.
Defined.

(** ** createSwapChain *)

Lemma preferred_srgb (f : VkSurfaceFormatKHR) :
  preferred f = true <-> f = srgb_format.
Proof.
  unfold preferred, srgb_format. destruct f as [fmt cs]; simpl.
  rewrite andb_true_iff, !Z.eqb_eq. split.
  - intros [-> ->]. reflexivity.
  - intros [= -> ->]. split; reflexivity.
Qed.

Lemma chooseSwapSurfaceFormat_dichotomy (l : list VkSurfaceFormatKHR) :
  (srgb_format ∈ l /\ chooseSwapSurfaceFormat l = Return srgb_format) \/
  ((srgb_format ∉ l) /\ chooseSwapSurfaceFormat l = NoReturn).
Proof.
  induction l as [|f l IH]; cbn [chooseSwapSurfaceFormat].
  - right. split; [apply not_elem_of_nil | reflexivity].
  - fold (preferred f). destruct (preferred f) eqn:Hf.
    + apply preferred_srgb in Hf. subst f.
      left. split; [apply elem_of_cons; left; reflexivity | reflexivity].
    + destruct IH as [[Hin Heq]|[Hnin Heq]].
      * left. split; [apply elem_of_cons; right; exact Hin | exact Heq].
      * right. split; [|exact Heq].
        intros Hin. apply elem_of_cons in Hin as [Hhd|Htl]; [|auto].
        symmetry in Hhd. apply preferred_srgb in Hhd. congruence.
Qed.

Lemma createSwapChain_createInfo_NoReturn (app : HelloTriangleApplication) :
  srgb_format ∉ surfaceFormatsKHR (physicalDevice app) ->
  createSwapChain_createInfo app = NoReturn.
Proof.
  intros Hnin. unfold createSwapChain_createInfo.
  rewrite querySwapChainSupport_fields; simpl.
  destruct (chooseSwapSurfaceFormat_dichotomy
              (surfaceFormatsKHR (physicalDevice app)))
    as [[Hin _]|[_ Heq]]; [contradiction|].
  rewrite Heq. reflexivity.
Qed.

Lemma createSwapChain_createInfo_Throw (app : HelloTriangleApplication) :
  srgb_format ∈ surfaceFormatsKHR (physicalDevice app) ->
  graphicsFamily (findQueueFamilies (physicalDevice app)) = None \/
  presentFamily (findQueueFamilies (physicalDevice app)) = None ->
  createSwapChain_createInfo app = Throw bad_optional_access.
Proof.
  intros Hin Hnone. unfold createSwapChain_createInfo.
  rewrite querySwapChainSupport_fields; simpl.
  destruct (chooseSwapSurfaceFormat_dichotomy
              (surfaceFormatsKHR (physicalDevice app)))
    as [[_ Heq]|[Hnin _]]; [|contradiction].
  rewrite Heq; simpl. unfold createSwapChain_sharing.
  destruct (graphicsFamily (findQueueFamilies (physicalDevice app)));
    destruct (presentFamily (findQueueFamilies (physicalDevice app)));
    simpl; try reflexivity.
  destruct Hnone; discriminate.
Qed.

(** X12: the outcomes of [createSwapChain] in the order the function
    decides them.  Without the sRGB BGRA format among the device's formats
    no value is defined; with it and a missing graphics or present index
    the function throws [bad_optional_access]; with it and both indices the
    create call is reached, a refusal throws "failed to create swap
    chain!", and an accepted call stores the new handle, the driver's
    images, the sRGB BGRA format and the chosen extent. *)
Theorem createSwapChain_outcomes (app : HelloTriangleApplication) :
  let d := physicalDevice app in
  (srgb_format ∉ surfaceFormatsKHR d -> createSwapChain app = NoReturn) /\
  (srgb_format ∈ surfaceFormatsKHR d ->
   graphicsFamily (findQueueFamilies d) = None \/
   presentFamily (findQueueFamilies d) = None ->
   createSwapChain app = Throw bad_optional_access) /\
  (srgb_format ∈ surfaceFormatsKHR d ->
   forall g p, findQueueFamilies d = mkIndices (Some g) (Some p) ->
   exists ci, createSwapChain_createInfo app = Return ci /\
     (vkCreateSwapchainKHR (device app) ci = None ->
      createSwapChain app
        = Throw (runtime_error "failed to create swap chain!")) /\
     (forall h, vkCreateSwapchainKHR (device app) ci = Some h ->
      createSwapChain app =
      Return (mkApplication (window app) (surface app) (device app) d h
                (vkGetSwapchainImagesKHR (device app) h)
                VK_FORMAT_B8G8R8A8_SRGB
                (chooseSwapExtent (window app) (surfaceCapabilitiesKHR d))))).
Proof.
  intros d. split; [|split].
  - intros Hnin. unfold createSwapChain.
    rewrite createSwapChain_createInfo_NoReturn by exact Hnin. reflexivity.
  - intros Hin Hnone. unfold createSwapChain.
    rewrite createSwapChain_createInfo_Throw by assumption. reflexivity.
  - intros Hin g p Hidx.
    destruct (chooseSwapSurfaceFormat_dichotomy (surfaceFormatsKHR d))
      as [[_ Heq]|[Hnin _]]; [|contradiction].
    pose proof (createSwapChain_createInfo_Return app srgb_format g p Heq Hidx)
      as Hci. cbv zeta in Hci.
    eexists. split; [exact Hci|].
    unfold createSwapChain. rewrite Hci. cbn [bind].
    split.
    + intros ->. reflexivity.
    + intros h ->. reflexivity.
Qed.

Lemma createSwapChain_outcomes_witness :
  createSwapChain (application_on graphics_first_device VK_NULL_HANDLE)
  = Throw bad_optional_access.
Proof.
  apply (proj1 (proj2 (createSwapChain_outcomes
           (application_on graphics_first_device VK_NULL_HANDLE)))).
  - apply elem_of_cons; left; reflexivity.
  - right. reflexivity.
Defined.

(** What a successful [createSwapChain] tells about its input. *)
Lemma createSwapChain_createInfo_Return_inv (app : HelloTriangleApplication)
    (ci : VkSwapchainCreateInfoKHR.t) :
  createSwapChain_createInfo app = Return ci ->
  srgb_format ∈ surfaceFormatsKHR (physicalDevice app) /\
  exists g p,
    findQueueFamilies (physicalDevice app) = mkIndices (Some g) (Some p).
Proof.
  intros Hci.
  destruct (chooseSwapSurfaceFormat_dichotomy
              (surfaceFormatsKHR (physicalDevice app)))
    as [[Hin _]|[Hnin _]].
  - split; [exact Hin|].
    destruct (findQueueFamilies (physicalDevice app)) as [[g|] [p|]] eqn:E;
      [exists g, p; reflexivity | | |];
      rewrite createSwapChain_createInfo_Throw in Hci;
      try discriminate; try exact Hin; rewrite E; simpl; auto.
  - rewrite createSwapChain_createInfo_NoReturn in Hci by exact Hnin.
    discriminate.
Qed.

Lemma createSwapChain_createInfo_Return_eq (app : HelloTriangleApplication)
    (ci : VkSwapchainCreateInfoKHR.t) :
  createSwapChain_createInfo app = Return ci ->
  exists g p,
    findQueueFamilies (physicalDevice app) = mkIndices (Some g) (Some p) /\
    ci =
    let caps := surfaceCapabilitiesKHR (physicalDevice app) in
    let sharing :=
      if bool_decide (g = p)
      then (VK_SHARING_MODE_EXCLUSIVE, 0, None)
      else (VK_SHARING_MODE_CONCURRENT, 2, Some [g; p]) in
    VkSwapchainCreateInfoKHR.mk (surface app) (imageCount_of caps)
      VK_FORMAT_B8G8R8A8_SRGB VK_COLOR_SPACE_SRGB_NONLINEAR_KHR
      (chooseSwapExtent (window app) caps) 1
      VK_IMAGE_USAGE_COLOR_ATTACHMENT_BIT
      (fst (fst sharing)) (snd (fst sharing)) (snd sharing)
      (currentTransform caps) VK_COMPOSITE_ALPHA_OPAQUE_BIT_KHR
      (chooseSwapPresentMode (surfacePresentModesKHR (physicalDevice app)))
      true VK_NULL_HANDLE.
Proof.
  intros Hci.
  destruct (createSwapChain_createInfo_Return_inv app ci Hci)
    as (Hin & g & p & Hidx).
  destruct (chooseSwapSurfaceFormat_dichotomy
              (surfaceFormatsKHR (physicalDevice app)))
    as [[_ Heq]|[Hnin _]]; [|contradiction].
  pose proof (createSwapChain_createInfo_Return app srgb_format g p Heq Hidx)
    as Hci'. cbv zeta in Hci'.
  rewrite Hci in Hci'. injection Hci' as Hrec.
  exists g, p. split; [exact Hidx | exact Hrec].
Qed.

(** With the sRGB BGRA format among the device's formats, a create-info
    that reaches the create call is this structure. *)
Lemma createSwapChain_createInfo_offered (app : HelloTriangleApplication)
    (ci : VkSwapchainCreateInfoKHR.t) :
  srgb_format ∈ surfaceFormatsKHR (physicalDevice app) ->
  createSwapChain_createInfo app = Return ci ->
  exists g p,
    findQueueFamilies (physicalDevice app) = mkIndices (Some g) (Some p) /\
    ci =
    let caps := surfaceCapabilitiesKHR (physicalDevice app) in
    let sharing :=
      if bool_decide (g = p)
      then (VK_SHARING_MODE_EXCLUSIVE, 0, None)
      else (VK_SHARING_MODE_CONCURRENT, 2, Some [g; p]) in
    VkSwapchainCreateInfoKHR.mk (surface app) (imageCount_of caps)
      VK_FORMAT_B8G8R8A8_SRGB VK_COLOR_SPACE_SRGB_NONLINEAR_KHR
      (chooseSwapExtent (window app) caps) 1
      VK_IMAGE_USAGE_COLOR_ATTACHMENT_BIT
      (fst (fst sharing)) (snd (fst sharing)) (snd sharing)
      (currentTransform caps) VK_COMPOSITE_ALPHA_OPAQUE_BIT_KHR
      (chooseSwapPresentMode (surfacePresentModesKHR (physicalDevice app)))
      true VK_NULL_HANDLE.
Proof.
  intros Hin Hci.
  destruct (chooseSwapSurfaceFormat_dichotomy
              (surfaceFormatsKHR (physicalDevice app)))
    as [[_ Heq]|[Hnin _]]; [|contradiction].
  destruct (findQueueFamilies (physicalDevice app)) as [[g|] [p|]] eqn:Hidx;
    try (rewrite createSwapChain_createInfo_Throw in Hci
           by (try exact Hin; rewrite Hidx; cbn; auto);
         discriminate).
  pose proof (createSwapChain_createInfo_Return app srgb_format g p Heq Hidx)
    as Hci'. cbv zeta in Hci'.
  rewrite Hci in Hci'. injection Hci' as Hrec.
  exists g, p. split; [reflexivity | exact Hrec].
Qed.

(** X13: for a device that offers the sRGB BGRA format, when
    [createSwapChain] returns, both queue indices were set, the create call
    accepted the create-info with the handle now stored, the window,
    surface and devices are unchanged, the stored images are the ones the
    driver reports for the new handle, the stored format is
    [VK_FORMAT_B8G8R8A8_SRGB] and the stored extent is the one
    [chooseSwapExtent] selects. *)
Theorem createSwapChain_success (app app' : HelloTriangleApplication) :
  srgb_format ∈ surfaceFormatsKHR (physicalDevice app) ->
  createSwapChain app = Return app' ->
  (exists g p,
     findQueueFamilies (physicalDevice app) = mkIndices (Some g) (Some p)) /\
  (exists ci, createSwapChain_createInfo app = Return ci /\
     vkCreateSwapchainKHR (device app) ci = Some (swapChain app')) /\
  window app' = window app /\ surface app' = surface app /\
  device app' = device app /\ physicalDevice app' = physicalDevice app /\
  swapChainImages app'
    = vkGetSwapchainImagesKHR (device app) (swapChain app') /\
  swapChainImageFormat app' = VK_FORMAT_B8G8R8A8_SRGB /\
  swapChainExtent app'
    = chooseSwapExtent (window app)
        (surfaceCapabilitiesKHR (physicalDevice app)).
Proof.
  intros Hin Hret. unfold createSwapChain in Hret.
  destruct (createSwapChain_createInfo app) as [ci| |] eqn:Hci;
    cbn [bind] in Hret; try discriminate.
  destruct (vkCreateSwapchainKHR (device app) ci) as [h|] eqn:Hdrv;
    [|discriminate].
  injection Hret as <-.
  destruct (createSwapChain_createInfo_offered app ci Hin Hci)
    as (g & p & Hidx & Hrec).
  split; [exists g, p; exact Hidx|].
  split; [exists ci; split; [reflexivity | exact Hdrv]|].
  cbn [window surface device physicalDevice swapChain swapChainImages
       swapChainImageFormat swapChainExtent].
  do 5 (split; [reflexivity|]).
  rewrite Hrec. split; reflexivity.
Qed.

Lemma createSwapChain_success_witness :
  srgb_format ∈ surfaceFormatsKHR (physicalDevice first_application) /\
  createSwapChain first_application = Return built_application /\
  swapChainImageFormat built_application = VK_FORMAT_B8G8R8A8_SRGB /\
  swapChainExtent built_application = mkExtent 800 600.
Proof.
  assert (Hin : srgb_format
                ∈ surfaceFormatsKHR (physicalDevice first_application))
    by (apply elem_of_cons; right; apply elem_of_cons; left; reflexivity).
  assert (Hret : createSwapChain first_application = Return built_application)
    by (vm_compute; reflexivity).
  split; [exact Hin|]. split; [exact Hret|].
  destruct (createSwapChain_success first_application built_application
              Hin Hret)
    as (_ & _ & _ & _ & _ & _ & _ & Hfmt & Hext).
  split; [exact Hfmt | exact Hext].
Defined.

Lemma createSwapChain_createInfo_reads (a b : HelloTriangleApplication) :
  window a = window b -> surface a = surface b ->
  physicalDevice a = physicalDevice b ->
  createSwapChain_createInfo a = createSwapChain_createInfo b.
Proof.
  intros Hw Hs Hd. unfold createSwapChain_createInfo.
  rewrite Hw, Hs, Hd. reflexivity.
Qed.

(** X14: after a successful [createSwapChain], running it again on the
    resulting application hands the create call the same create-info: the
    create-info depends on the window, the surface and the physical device
    only. *)
Theorem createSwapChain_recreate_same_createInfo
    (app app' : HelloTriangleApplication) :
  createSwapChain app = Return app' ->
  createSwapChain_createInfo app' = createSwapChain_createInfo app.
Proof.
  intros Hret. unfold createSwapChain in Hret.
  destruct (createSwapChain_createInfo app) as [ci| |] eqn:Hci;
    cbn [bind] in Hret; try discriminate.
  destruct (vkCreateSwapchainKHR (device app) ci) as [h|]; [|discriminate].
  injection Hret as <-. rewrite <- Hci.
  apply createSwapChain_createInfo_reads; reflexivity.
Qed.

Lemma createSwapChain_recreate_same_createInfo_witness :
  createSwapChain first_application = Return built_application /\
  createSwapChain_createInfo built_application
  = createSwapChain_createInfo first_application.
Proof.
  assert (Hret : createSwapChain first_application = Return built_application)
    by (vm_compute; reflexivity).
  split; [exact Hret|].
  exact (createSwapChain_recreate_same_createInfo first_application
           built_application Hret).
Defined.

(** X15: every create-info [createSwapChain] hands to the create call
    names the application's surface and the selected extent, has one array
    layer, colour-attachment usage, the capabilities' current transform as
    pre-transform, opaque composite alpha and clipping enabled. *)
Theorem createSwapChain_createInfo_policy (app : HelloTriangleApplication)
    (ci : VkSwapchainCreateInfoKHR.t) :
  createSwapChain_createInfo app = Return ci ->
  let caps := surfaceCapabilitiesKHR (physicalDevice app) in
  VkSwapchainCreateInfoKHR.surface ci = surface app /\
  VkSwapchainCreateInfoKHR.imageExtent ci = chooseSwapExtent (window app) caps /\
  VkSwapchainCreateInfoKHR.imageArrayLayers ci = 1 /\
  VkSwapchainCreateInfoKHR.imageUsage ci = VK_IMAGE_USAGE_COLOR_ATTACHMENT_BIT /\
  VkSwapchainCreateInfoKHR.preTransform ci = currentTransform caps /\
  VkSwapchainCreateInfoKHR.compositeAlpha ci
    = VK_COMPOSITE_ALPHA_OPAQUE_BIT_KHR /\
  VkSwapchainCreateInfoKHR.clipped ci = true.
Proof.
  intros Hci caps.
  destruct (createSwapChain_createInfo_Return_eq app ci Hci)
    as (g & p & _ & Hrec).
  subst ci. repeat split; reflexivity.
Qed.

Lemma createSwapChain_createInfo_policy_witness :
  createSwapChain_createInfo first_application = Return first_createInfo /\
  VkSwapchainCreateInfoKHR.imageArrayLayers first_createInfo = 1 /\
  VkSwapchainCreateInfoKHR.clipped first_createInfo = true.
Proof.
  assert (Hci : createSwapChain_createInfo first_application
                = Return first_createInfo) by (vm_compute; reflexivity).
  split; [exact Hci|].
  destruct (createSwapChain_createInfo_policy first_application
              first_createInfo Hci) as (_ & _ & Hlayers & _ & _ & _ & Hclip).
  split; [exact Hlayers | exact Hclip].
Defined.

(** X16: for a device that offers the sRGB BGRA format, every create-info
    [createSwapChain] hands to the create call has that format with the
    nonlinear colour space, the mailbox or the FIFO presentation mode, and
    either exclusive sharing with a zero index count and no index array or
    concurrent sharing with count 2 and an array of two different
    indices. *)
Theorem createSwapChain_createInfo_format_and_sharing
    (app : HelloTriangleApplication) (ci : VkSwapchainCreateInfoKHR.t) :
  srgb_format ∈ surfaceFormatsKHR (physicalDevice app) ->
  createSwapChain_createInfo app = Return ci ->
  VkSwapchainCreateInfoKHR.imageFormat ci = VK_FORMAT_B8G8R8A8_SRGB /\
  VkSwapchainCreateInfoKHR.imageColorSpace ci
    = VK_COLOR_SPACE_SRGB_NONLINEAR_KHR /\
  (VkSwapchainCreateInfoKHR.presentMode ci = VK_PRESENT_MODE_MAILBOX_KHR \/
   VkSwapchainCreateInfoKHR.presentMode ci = VK_PRESENT_MODE_FIFO_KHR) /\
  ((VkSwapchainCreateInfoKHR.imageSharingMode ci = VK_SHARING_MODE_EXCLUSIVE /\
    VkSwapchainCreateInfoKHR.queueFamilyIndexCount ci = 0 /\
    VkSwapchainCreateInfoKHR.pQueueFamilyIndices ci = None) \/
   (VkSwapchainCreateInfoKHR.imageSharingMode ci = VK_SHARING_MODE_CONCURRENT /\
    VkSwapchainCreateInfoKHR.queueFamilyIndexCount ci = 2 /\
    exists g p, g <> p /\
      VkSwapchainCreateInfoKHR.pQueueFamilyIndices ci = Some [g; p])).
Proof.
  intros Hin Hci.
  destruct (createSwapChain_createInfo_offered app ci Hin Hci)
    as (g & p & _ & Hrec).
  subst ci. cbn.
  split; [reflexivity|]. split; [reflexivity|].
  split.
  - destruct (chooseSwapPresentMode_cases
                (surfacePresentModesKHR (physicalDevice app)))
      as [[_ H]|[_ H]]; auto.
  - case_bool_decide as Hgp; cbn.
    + left. repeat split; reflexivity.
    + right. split; [reflexivity|]. split; [reflexivity|].
      exists g, p. split; [exact Hgp | reflexivity].
Qed.

Lemma createSwapChain_createInfo_format_and_sharing_witness :
  srgb_format ∈ surfaceFormatsKHR (physicalDevice first_application) /\
  createSwapChain_createInfo first_application = Return first_createInfo /\
  VkSwapchainCreateInfoKHR.imageFormat first_createInfo
  = VK_FORMAT_B8G8R8A8_SRGB.
Proof.
  assert (Hin : srgb_format
                ∈ surfaceFormatsKHR (physicalDevice first_application))
    by (apply elem_of_cons; right; apply elem_of_cons; left; reflexivity).
  assert (Hci : createSwapChain_createInfo first_application
                = Return first_createInfo) by (vm_compute; reflexivity).
  split; [exact Hin|]. split; [exact Hci|].
  exact (proj1 (createSwapChain_createInfo_format_and_sharing
                  first_application first_createInfo Hin Hci)).
Defined.

(** X17: for a device with fewer than [2^31] queue families none of
    which can present to the surface, [findQueueFamilies] returns no present
    index, and [createSwapChain] throws [bad_optional_access] when the
    device offers the sRGB BGRA format. *)
Theorem createSwapChain_without_present_support
    (app : HelloTriangleApplication) :
  let d := physicalDevice app in
  Z.of_nat (length (queueFamilyProperties d)) < 2147483648 ->
  (forall j, 0 <= j < Z.of_nat (length (queueFamilyProperties d)) ->
     surfaceSupportKHR d j = false) ->
  presentFamily (findQueueFamilies d) = None /\
  (srgb_format ∈ surfaceFormatsKHR d ->
   createSwapChain app = Throw bad_optional_access).
Proof.
  intros d Hn Hno.
  assert (Hnone : presentFamily (findQueueFamilies d) = None).
  { destruct (findQueueFamilies_loop_spec d (queueFamilyProperties d) None 0)
      as (_ & _ & _ & _ & Hps & _); [lia | unfold UINT32_MAX; lia |].
    fold (findQueueFamilies_scan d) in Hps. fold (findQueueFamilies d) in Hps.
    destruct (presentFamily (findQueueFamilies d)) as [p|]; [|reflexivity].
    destruct (Hps p eq_refl) as [[Hp0 _]|(Hr1 & Hr2 & Hr3 & _)];
      [discriminate|].
    rewrite Hno in Hr3 by lia. discriminate. }
  split; [exact Hnone|].
  intros Hin. unfold createSwapChain.
  rewrite createSwapChain_createInfo_Throw; [reflexivity | exact Hin |].
  right. exact Hnone.
Qed.

Lemma createSwapChain_without_present_support_witness :
  isDeviceSuitable graphics_only_device = true /\
  createSwapChain (application_on graphics_only_device VK_NULL_HANDLE)
  = Throw bad_optional_access.
Proof.
  split; [reflexivity|].
  destruct (createSwapChain_without_present_support
              (application_on graphics_only_device VK_NULL_HANDLE))
    as [_ Hthrow]; [simpl; lia | intros j _; reflexivity |].
  apply Hthrow. apply elem_of_cons; left; reflexivity.
Defined.

(** ** Validation layers *)

Lemma layerFound_loop_elem_of (layerName : string)
    (availableLayers : list string) :
  layerFound_loop layerName availableLayers = true <->
  layerName ∈ availableLayers.
Proof.
  induction availableLayers as [|x rest IH]; cbn [layerFound_loop].
  - split; [discriminate | intros H; apply elem_of_nil in H; contradiction].
  - rewrite elem_of_cons.
    destruct (String.eqb_spec layerName x) as [->|Hne].
    + split; auto.
    + rewrite IH. split; [auto | intros [H|H]; [contradiction | exact H]].
Qed.

(** X18: the two nested loops of [checkValidationLayerSupport] answer
    [true] exactly when every requested layer name occurs among the
    available ones; for the program's list this is when
    [VK_LAYER_KHRONOS_validation] is available. *)
Theorem checkValidationLayerSupport_all_found :
  (forall layers availableLayers : list string,
   checkValidationLayerSupport_loop layers availableLayers = true <->
   forall layerName, layerName ∈ layers -> layerName ∈ availableLayers) /\
  (forall availableLayers : list string,
   checkValidationLayerSupport availableLayers = true <->
   "VK_LAYER_KHRONOS_validation" ∈ availableLayers).
Proof.
  assert (Hloop : forall layers availableLayers : list string,
   checkValidationLayerSupport_loop layers availableLayers = true <->
   forall layerName, layerName ∈ layers -> layerName ∈ availableLayers).
  { intros layers availableLayers.
    induction layers as [|x rest IH]; cbn [checkValidationLayerSupport_loop].
    - split; [|reflexivity].
      intros _ name H. apply elem_of_nil in H. contradiction.
    - destruct (layerFound_loop x availableLayers) eqn:Hx; cbn [negb].
      + apply layerFound_loop_elem_of in Hx. rewrite IH. split.
        * intros H name Hin. apply elem_of_cons in Hin as [->|Hin]; auto.
        * intros H name Hin. apply H. apply elem_of_cons. right. exact Hin.
      + split; [discriminate|]. intros H.
        assert (Hin : x ∈ availableLayers)
          by (apply H; apply elem_of_cons; left; reflexivity).
        apply layerFound_loop_elem_of in Hin. congruence. }
  split; [exact Hloop|].
  intros availableLayers. unfold checkValidationLayerSupport, validationLayers.
  rewrite Hloop. split.
  - intros H. apply H. apply elem_of_cons. left. reflexivity.
  - intros H name Hin. apply elem_of_cons in Hin as [->|Hin]; [exact H|].
    apply elem_of_nil in Hin. contradiction.
Qed.

(** ** Instance creation and the debug messenger *)

Lemma checkValidationLayerSupport_elem_of (availableLayers : list string) :
  checkValidationLayerSupport availableLayers = true <->
  "VK_LAYER_KHRONOS_validation" ∈ availableLayers.
Proof.
  unfold checkValidationLayerSupport, validationLayers.
  cbn [checkValidationLayerSupport_loop].
  destruct (layerFound_loop "VK_LAYER_KHRONOS_validation" availableLayers)
    eqn:Hfound; cbn [negb].
  - apply layerFound_loop_elem_of in Hfound. split; auto.
  - split; [discriminate|]. intros Hin.
    apply layerFound_loop_elem_of in Hin. congruence.
Qed.

(** X19: [createInstance] with validation layers enabled and the
    validation layer unavailable throws "validation layers requested, but
    not available!" whatever the loader would answer; otherwise it returns
    the instance of an accepted create call and throws "failed to create
    instance!" on a refused one.  Without validation layers the create-info
    carries the window library's extensions only, no layers and no debug
    create-info; with them it carries the debug utils extension after the
    window library's, the validation layer and the debug create-info. *)
Theorem createInstance_outcomes (enableValidationLayers : bool)
    (loader : VulkanLoader) :
  let layers := vkEnumerateInstanceLayerProperties loader in
  let createInfo := createInstance_createInfo enableValidationLayers loader in
  (enableValidationLayers = true ->
   ("VK_LAYER_KHRONOS_validation" ∉ layers) ->
   createInstance enableValidationLayers loader
   = Throw (runtime_error "validation layers requested, but not available!")) /\
  (enableValidationLayers = false \/ "VK_LAYER_KHRONOS_validation" ∈ layers ->
   (vkCreateInstance loader createInfo = None ->
    createInstance enableValidationLayers loader
    = Throw (runtime_error "failed to create instance!")) /\
   (forall instance, vkCreateInstance loader createInfo = Some instance ->
    createInstance enableValidationLayers loader = Return instance)) /\
  (enableValidationLayers = false ->
   ppEnabledExtensionNames createInfo
     = glfwGetRequiredInstanceExtensions loader /\
   enabledLayerCount createInfo = 0 /\
   ppEnabledLayerNames createInfo = None /\
   pNext createInfo = None) /\
  (enableValidationLayers = true ->
   ppEnabledExtensionNames createInfo
     = (glfwGetRequiredInstanceExtensions loader
        ++ [VK_EXT_DEBUG_UTILS_EXTENSION_NAME])%list /\
   enabledLayerCount createInfo = 1 /\
   ppEnabledLayerNames createInfo = Some ["VK_LAYER_KHRONOS_validation"] /\
   pNext createInfo = Some populateDebugMessengerCreateInfo).
Proof.
  intros layers createInfo. split; [|split; [|split]].
  - intros -> Hnin. unfold createInstance. fold layers.
    destruct (checkValidationLayerSupport layers) eqn:Hchk; [|reflexivity].
    apply checkValidationLayerSupport_elem_of in Hchk. contradiction.
  - intros Hok.
    assert (Hgate : enableValidationLayers
                    && negb (checkValidationLayerSupport layers) = false).
    { destruct Hok as [->|Hin]; [reflexivity|].
      apply checkValidationLayerSupport_elem_of in Hin. rewrite Hin.
      apply andb_false_r. }
    unfold createInstance. fold layers. rewrite Hgate. fold createInfo.
    split.
    + intros ->. reflexivity.
    + intros instance ->. reflexivity.
  - intros ->. repeat split; reflexivity.
  - intros ->. repeat split; reflexivity.
Qed.

(** X20: [setupDebugMessenger] leaves the messenger untouched when
    validation layers are disabled; when they are enabled it throws "failed
    to set up debug messenger!" if the instance has no
    [vkCreateDebugUtilsMessengerEXT] entry point or the entry point returns
    a code other than [VK_SUCCESS], and stores the new messenger
    otherwise. *)
Theorem setupDebugMessenger_outcomes (instance : VkInstance)
    (debugMessenger : Z) :
  setupDebugMessenger false instance debugMessenger = Return debugMessenger /\
  (vkGetInstanceProcAddr instance "vkCreateDebugUtilsMessengerEXT" = None ->
   setupDebugMessenger true instance debugMessenger
   = Throw (runtime_error "failed to set up debug messenger!")) /\
  (forall func code messenger,
   vkGetInstanceProcAddr instance "vkCreateDebugUtilsMessengerEXT"
     = Some func ->
   func populateDebugMessengerCreateInfo debugMessenger = (code, messenger) ->
   (code = VK_SUCCESS ->
    setupDebugMessenger true instance debugMessenger = Return messenger) /\
   (code <> VK_SUCCESS ->
    setupDebugMessenger true instance debugMessenger
    = Throw (runtime_error "failed to set up debug messenger!"))).
Proof.
  split; [reflexivity|]. split.
  - intros Hnone. unfold setupDebugMessenger, CreateDebugUtilsMessengerEXT.
    rewrite Hnone. reflexivity.
  - intros func code messenger Hfunc Hcall.
    unfold setupDebugMessenger, CreateDebugUtilsMessengerEXT.
    rewrite Hfunc, Hcall. cbn [negb fst snd].
    split.
    + intros ->. reflexivity.
    + intros Hne. destruct (Z.eqb_spec code VK_SUCCESS);
        [contradiction | reflexivity].
Qed.

(** ** createLogicalDevice and initVulkan *)

Lemma bind_Return_inv {A B : Type} (r : result A) (k : A -> result B) (b : B) :
  bind r k = Return b -> exists a, r = Return a /\ k a = Return b.
Proof.
  destruct r as [a| |]; cbn; try discriminate.
  intros H. exists a. split; [reflexivity | exact H].
Qed.

Lemma createLogicalDevice_Throw (enableValidationLayers : bool)
    (driver : DeviceDriver) (d : VkPhysicalDevice) :
  graphicsFamily (findQueueFamilies d) = None \/
  presentFamily (findQueueFamilies d) = None ->
  createLogicalDevice enableValidationLayers driver d
  = Throw bad_optional_access.
Proof.
  intros Hnone. unfold createLogicalDevice.
  destruct (graphicsFamily (findQueueFamilies d));
    destruct (presentFamily (findQueueFamilies d)); cbn; try reflexivity.
  destruct Hnone; discriminate.
Qed.

Lemma createLogicalDevice_indices (enableValidationLayers : bool)
    (driver : DeviceDriver) (d : VkPhysicalDevice) (g p : Z) :
  findQueueFamilies d = mkIndices (Some g) (Some p) ->
  createLogicalDevice enableValidationLayers driver d =
  match vkCreateDevice driver d
          (createLogicalDevice_createInfo enableValidationLayers g) with
  | None => Throw (runtime_error "failed to create a logical device!")
  | Some device =>
      Return (device, vkGetDeviceQueue driver device g 0,
              vkGetDeviceQueue driver device p 0)
  end.
Proof.
  intros Hidx. unfold createLogicalDevice. rewrite Hidx. reflexivity.
Qed.

(** X21: [createLogicalDevice] throws [bad_optional_access] exactly when
    the graphics or the present index is missing.  With both indices it
    asks [vkCreateDevice] for one queue of the graphics family only, so a
    different present family is not among the families a queue is requested
    from; a refused call throws "failed to create a logical device!", and
    an accepted one yields the device with queue 0 of the graphics family
    and queue 0 of the present family. *)
Theorem createLogicalDevice_outcomes (enableValidationLayers : bool)
    (driver : DeviceDriver) (d : VkPhysicalDevice) :
  (createLogicalDevice enableValidationLayers driver d
     = Throw bad_optional_access <->
   graphicsFamily (findQueueFamilies d) = None \/
   presentFamily (findQueueFamilies d) = None) /\
  (forall g p, findQueueFamilies d = mkIndices (Some g) (Some p) ->
   let createInfo := createLogicalDevice_createInfo enableValidationLayers g in
   map VkDeviceQueueCreateInfo.queueFamilyIndex
     (VkDeviceCreateInfo.pQueueCreateInfos createInfo) = [g] /\
   VkDeviceCreateInfo.ppEnabledExtensionNames createInfo
     = [VK_KHR_SWAPCHAIN_EXTENSION_NAME] /\
   (vkCreateDevice driver d createInfo = None ->
    createLogicalDevice enableValidationLayers driver d
    = Throw (runtime_error "failed to create a logical device!")) /\
   (forall device, vkCreateDevice driver d createInfo = Some device ->
    createLogicalDevice enableValidationLayers driver d
    = Return (device, vkGetDeviceQueue driver device g 0,
              vkGetDeviceQueue driver device p 0))).
Proof.
  split.
  - split; [|apply createLogicalDevice_Throw].
    destruct (findQueueFamilies d) as [[g|] [p|]] eqn:Hidx; cbn; auto.
    rewrite (createLogicalDevice_indices _ _ _ g p Hidx).
    destruct (vkCreateDevice driver d _); discriminate.
  - intros g p Hidx createInfo.
    rewrite (createLogicalDevice_indices _ _ _ g p Hidx). fold createInfo.
    split; [reflexivity|]. split; [reflexivity|].
    split.
    + intros ->. reflexivity.
    + intros device ->. reflexivity.
Qed.

Lemma createLogicalDevice_Return_inv (enableValidationLayers : bool)
    (driver : DeviceDriver) (d : VkPhysicalDevice)
    (logical : VkDevice * Z * Z) :
  createLogicalDevice enableValidationLayers driver d = Return logical ->
  exists g p,
    findQueueFamilies d = mkIndices (Some g) (Some p) /\
    vkCreateDevice driver d
      (createLogicalDevice_createInfo enableValidationLayers g)
      = Some (fst (fst logical)) /\
    snd (fst logical) = vkGetDeviceQueue driver (fst (fst logical)) g 0 /\
    snd logical = vkGetDeviceQueue driver (fst (fst logical)) p 0.
Proof.
  intros Hret.
  destruct (findQueueFamilies d) as [[g|] [p|]] eqn:Hidx;
    try (rewrite createLogicalDevice_Throw in Hret by (rewrite Hidx; cbn; auto);
         discriminate).
  rewrite (createLogicalDevice_indices _ _ _ g p Hidx) in Hret.
  destruct (vkCreateDevice driver d _) as [device|] eqn:Hdrv; [|discriminate].
  injection Hret as <-. exists g, p. cbn. repeat split; auto.
Qed.

Lemma pickPhysicalDevice_Return_loop (devices : list VkPhysicalDevice)
    (d : VkPhysicalDevice) :
  pickPhysicalDevice devices = Return d <->
  pickPhysicalDevice_loop devices = Some d.
Proof.
  unfold pickPhysicalDevice.
  destruct devices as [|x rest]; cbn [length Nat.eqb].
  - cbn. split; discriminate.
  - destruct (pickPhysicalDevice_loop (x :: rest)) as [found|].
    + split; intros [= ->]; reflexivity.
    + split; discriminate.
Qed.

Lemma createSwapChain_Return_unchanged (app app' : HelloTriangleApplication) :
  createSwapChain app = Return app' ->
  window app' = window app /\ surface app' = surface app /\
  device app' = device app /\ physicalDevice app' = physicalDevice app.
Proof.
  intros Hret. unfold createSwapChain in Hret.
  destruct (createSwapChain_createInfo app) as [ci| |];
    cbn [bind] in Hret; try discriminate.
  destruct (vkCreateSwapchainKHR (device app) ci) as [h|]; [|discriminate].
  injection Hret as <-. cbn. repeat split; reflexivity.
Qed.

Lemma createSwapChain_Return_format (app app' : HelloTriangleApplication) :
  srgb_format ∈ surfaceFormatsKHR (physicalDevice app) ->
  createSwapChain app = Return app' ->
  swapChainImageFormat app' = VK_FORMAT_B8G8R8A8_SRGB.
Proof.
  intros Hin Hret. unfold createSwapChain in Hret.
  destruct (createSwapChain_createInfo app) as [ci| |] eqn:Hci;
    cbn [bind] in Hret; try discriminate.
  destruct (vkCreateSwapchainKHR (device app) ci) as [h|]; [|discriminate].
  injection Hret as <-.
  destruct (createSwapChain_createInfo_offered app ci Hin Hci)
    as (g & p & _ & Hrec).
  cbn. rewrite Hrec. reflexivity.
Qed.

(** X22: when [initVulkan] returns with a physical device that offers the
    sRGB BGRA format, the instance is the one [createInstance] returned,
    the surface the one [createSurface] returned, the physical device is
    the first suitable device of the enumeration for them, both of its
    queue indices are set and the two queues are queue 0 of those families
    of the created device, the window is unchanged and the swap chain
    format is [VK_FORMAT_B8G8R8A8_SRGB]. *)
Theorem initVulkan_success (enableValidationLayers : bool)
    (env : VulkanEnvironment) (debugMessenger0 : Z)
    (this : HelloTriangleApplication) (objects : VulkanObjects) :
  initVulkan enableValidationLayers env debugMessenger0 this = Return objects ->
  srgb_format
    ∈ surfaceFormatsKHR (physicalDevice (application objects)) ->
  let app := application objects in
  createInstance enableValidationLayers (loader env)
    = Return (instance objects) /\
  createSurface env (instance objects) (window this) = Return (surface app) /\
  (exists before after,
     vkEnumeratePhysicalDevices env (instance objects) (surface app)
       = (before ++ physicalDevice app :: after)%list /\
     Forall (fun x => isDeviceSuitable x = false) before /\
     isDeviceSuitable (physicalDevice app) = true) /\
  (exists g p,
     findQueueFamilies (physicalDevice app) = mkIndices (Some g) (Some p) /\
     graphicsQueue objects
       = vkGetDeviceQueue (deviceDriver env) (device app) g 0 /\
     presentQueue objects
       = vkGetDeviceQueue (deviceDriver env) (device app) p 0) /\
  window app = window this /\
  swapChainImageFormat app = VK_FORMAT_B8G8R8A8_SRGB.
Proof.
  intros Hret Hin app. unfold initVulkan in Hret.
  apply bind_Return_inv in Hret as (inst & Hinst & Hret).
  apply bind_Return_inv in Hret as (messenger & Hmsg & Hret).
  apply bind_Return_inv in Hret as (surf & Hsurf & Hret).
  apply bind_Return_inv in Hret as (pd & Hpick & Hret).
  apply bind_Return_inv in Hret as (logical & Hlog & Hret).
  apply bind_Return_inv in Hret as (app1 & Hswap & Hret).
  injection Hret as <-. subst app.
  cbn [instance application graphicsQueue presentQueue] in *.
  destruct (createSwapChain_Return_unchanged _ _ Hswap)
    as (Hw & Hs & Hd & Hp). cbn in Hw, Hs, Hd, Hp.
  assert (Hfmt : swapChainImageFormat app1 = VK_FORMAT_B8G8R8A8_SRGB).
  { rewrite Hp in Hin.
    eapply createSwapChain_Return_format; [|exact Hswap]. exact Hin. }
  rewrite Hs, Hp, Hd, Hw.
  apply pickPhysicalDevice_Return_loop, pickPhysicalDevice_loop_Some in Hpick.
  destruct (createLogicalDevice_Return_inv _ _ _ _ Hlog)
    as (g & p & Hidx & _ & Hgq & Hpq).
  split; [exact Hinst|]. split; [exact Hsurf|]. split; [exact Hpick|].
  split; [exists g, p; repeat split; assumption|].
  split; [reflexivity | exact Hfmt].
Qed.

Lemma initVulkan_success_witness :
  initVulkan true working_environment 0 first_application
    = Return working_objects /\
  srgb_format
    ∈ surfaceFormatsKHR (physicalDevice (application working_objects)) /\
  isDeviceSuitable (physicalDevice (application working_objects)) = true /\
  swapChainImageFormat (application working_objects)
    = VK_FORMAT_B8G8R8A8_SRGB.
Proof.
  assert (Hret : initVulkan true working_environment 0 first_application
                 = Return working_objects) by (vm_compute; reflexivity).
  assert (Hin : srgb_format
      ∈ surfaceFormatsKHR (physicalDevice (application working_objects)))
    by (apply elem_of_cons; right; apply elem_of_cons; left; reflexivity).
  split; [exact Hret|]. split; [exact Hin|].
  destruct (initVulkan_success true working_environment 0 first_application
              working_objects Hret Hin)
    as (_ & _ & (before & after & _ & _ & Hsuit) & _ & _ & Hfmt).
  split; [exact Hsuit | exact Hfmt].
Defined.

(** X23: [initVulkan] does not go on to another candidate once
    [pickPhysicalDevice] has chosen: when instance, messenger and surface
    are set up, and the first suitable device of the enumeration has fewer
    than [2^31] queue families none of which can present to the surface,
    [initVulkan] throws [bad_optional_access], whatever devices follow in
    the enumeration. *)
Theorem initVulkan_first_suitable_cannot_present
    (enableValidationLayers : bool) (env : VulkanEnvironment)
    (debugMessenger0 : Z) (this : HelloTriangleApplication)
    (inst : VkInstance) (messenger surf : Z)
    (before after : list VkPhysicalDevice) (d : VkPhysicalDevice) :
  createInstance enableValidationLayers (loader env) = Return inst ->
  setupDebugMessenger enableValidationLayers inst debugMessenger0
    = Return messenger ->
  createSurface env inst (window this) = Return surf ->
  vkEnumeratePhysicalDevices env inst surf = (before ++ d :: after)%list ->
  Forall (fun x => isDeviceSuitable x = false) before ->
  isDeviceSuitable d = true ->
  Z.of_nat (length (queueFamilyProperties d)) < 2147483648 ->
  (forall j, 0 <= j < Z.of_nat (length (queueFamilyProperties d)) ->
     surfaceSupportKHR d j = false) ->
  initVulkan enableValidationLayers env debugMessenger0 this
  = Throw bad_optional_access.
Proof.
  intros Hinst Hmsg Hsurf Henum Hbefore Hsuit Hn Hno.
  assert (Hpick : pickPhysicalDevice (vkEnumeratePhysicalDevices env inst surf)
                  = Return d).
  { apply pickPhysicalDevice_Return_loop, pickPhysicalDevice_loop_Some.
    exists before, after. repeat split; assumption. }
  assert (Hnone : presentFamily (findQueueFamilies d) = None).
  { destruct (findQueueFamilies_loop_spec d (queueFamilyProperties d) None 0)
      as (_ & _ & _ & _ & Hps & _); [lia | unfold UINT32_MAX; lia |].
    fold (findQueueFamilies_scan d) in Hps. fold (findQueueFamilies d) in Hps.
    destruct (presentFamily (findQueueFamilies d)) as [p|]; [|reflexivity].
    destruct (Hps p eq_refl) as [[Hp0 _]|(Hr1 & Hr2 & Hr3 & _)];
      [discriminate|].
    rewrite Hno in Hr3 by lia. discriminate. }
  unfold initVulkan. rewrite Hinst; cbn [bind]. rewrite Hmsg; cbn [bind].
  rewrite Hsurf; cbn [bind]. rewrite Hpick; cbn [bind].
  rewrite createLogicalDevice_Throw by (right; exact Hnone). reflexivity.
Qed.

Lemma initVulkan_first_suitable_cannot_present_witness :
  initVulkan true stuck_environment 0 first_application
  = Throw bad_optional_access /\
  isDeviceSuitable split_device = true.
Proof.
  split; [|reflexivity].
  apply (initVulkan_first_suitable_cannot_present true stuck_environment 0
           first_application sample_instance 9 1 [] [split_device]
           graphics_only_device);
    try reflexivity.
  constructor.
Defined.
